(** * docling/simple.py: the converter invocation shim

    The repository holds one Python script, [src/docling/simple.py]:

<<
    from docling.document_converter import DocumentConverter
    converter = DocumentConverter()
    result = converter.convert(source="https://arxiv.org/pdf/2206.01062")
    doc = result.document
    md_result = doc.export_to_markdown()
    with open("output.md", "w", encoding="utf-8") as f:
        f.write(md_result)
>>

    The script is embedded as a computation in a state-and-exception monad.
    The docling library is not part of the repository: it is a record of
    operations ([Library]) over which everything is quantified.  The calls
    into the Python runtime ([open], [f.write], the [with] statement) are
    embedded with the behaviour CPython gives them for a text file opened
    for writing; what the operating system decides (whether an open or a
    write fails) is a second record of oracles ([Platform]). *)

From Stdlib Require Import ZArith Lia.
From stdpp Require Import base option list strings gmap.

Open Scope Z_scope.

(** ** Python values *)

(** A Python [str] is a sequence of Unicode code points, a [bytes] a
    sequence of octets.  Both are lists of integers here. *)
Abbreviation pystr := (list Z).
Abbreviation pybytes := (list Z).

(** An exception object, as the code that raises it creates it. *)
Inductive exn : Type :=
| Exn (cls : string).

(** An exception on its way up: the object, and the exception that was
    being handled when it was raised, if any (its [__context__]). *)
Inductive pyexn : Type :=
| Raised (e : exn)
| RaisedDuring (e : exn) (handled : pyexn).

Definition exn_of (top : pyexn) : exn :=
  match top with
  | Raised e => e
  | RaisedDuring e _ => e
  end.

(** What the interpreter does when [top] comes up while [handled] is being
    handled: the oldest exception of the chain of [top], which was raised
    first, has [handled] as its [__context__]. *)
Fixpoint set_context (top handled : pyexn) : pyexn :=
  match top with
  | Raised e => RaisedDuring e handled
  | RaisedDuring e during => RaisedDuring e (set_context during handled)
  end.


(** ** Text encodings *)

Inductive Encoding : Type := utf_8 | ascii | latin_1.

(** The octets of one code point in UTF-8.  The surrogates U+D800..U+DFFF
    have no encoding (the codec runs with [errors="strict"]). *)
Definition utf8_char (c : Z) : option pybytes :=
  if c <? 0 then None
  else if c <? 0x80 then Some [c]
  else if c <? 0x800 then
    Some [Z.lor 0xC0 (Z.shiftr c 6); Z.lor 0x80 (Z.land c 0x3F)]
  else if (0xD800 <=? c) && (c <=? 0xDFFF) then None
  else if c <? 0x10000 then
    Some [Z.lor 0xE0 (Z.shiftr c 12);
          Z.lor 0x80 (Z.land (Z.shiftr c 6) 0x3F);
          Z.lor 0x80 (Z.land c 0x3F)]
  else if c <? 0x110000 then
    Some [Z.lor 0xF0 (Z.shiftr c 18);
          Z.lor 0x80 (Z.land (Z.shiftr c 12) 0x3F);
          Z.lor 0x80 (Z.land (Z.shiftr c 6) 0x3F);
          Z.lor 0x80 (Z.land c 0x3F)]
  else None.

Definition encode_char (enc : Encoding) (c : Z) : option pybytes :=
  match enc with
  | utf_8 => utf8_char c
  | ascii => if (0 <=? c) && (c <? 0x80) then Some [c] else None
  | latin_1 => if (0 <=? c) && (c <? 0x100) then Some [c] else None
  end.

(** [text.encode(enc)]: [None] stands for [UnicodeEncodeError]. *)
Fixpoint encode (enc : Encoding) (text : pystr) : option pybytes :=
  match text with
  | [] => Some []
  | c :: rest =>
    match encode_char enc c, encode enc rest with
    | Some b, Some bs => Some (b ++ bs)
    | _, _ => None
    end
  end.

(** The inverse direction, for reading the file back: one UTF-8 sequence. *)
Definition continuation (b : Z) : option Z :=
  if (0x80 <=? b) && (b <? 0xC0) then Some (Z.land b 0x3F) else None.

Definition utf8_decode_char (bs : pybytes) : option (Z * pybytes) :=
  match bs with
  | [] => None
  | b0 :: r0 =>
    if (0 <=? b0) && (b0 <? 0x80) then Some (b0, r0)
    else if (0xC0 <=? b0) && (b0 <? 0xE0) then
      match r0 with
      | b1 :: r1 =>
        match continuation b1 with
        | Some x1 =>
          let c := Z.lor (Z.shiftl (Z.land b0 0x1F) 6) x1 in
          if 0x80 <=? c then Some (c, r1) else None
        | None => None
        end
      | _ => None
      end
    else if (0xE0 <=? b0) && (b0 <? 0xF0) then
      match r0 with
      | b1 :: b2 :: r2 =>
        match continuation b1, continuation b2 with
        | Some x1, Some x2 =>
          let c := Z.lor (Z.shiftl (Z.land b0 0x0F) 12)
                         (Z.lor (Z.shiftl x1 6) x2) in
          if (0x800 <=? c) && negb ((0xD800 <=? c) && (c <=? 0xDFFF))
          then Some (c, r2) else None
        | _, _ => None
        end
      | _ => None
      end
    else if (0xF0 <=? b0) && (b0 <? 0xF8) then
      match r0 with
      | b1 :: b2 :: b3 :: r3 =>
        match continuation b1, continuation b2, continuation b3 with
        | Some x1, Some x2, Some x3 =>
          let c := Z.lor (Z.shiftl (Z.land b0 0x07) 18)
                         (Z.lor (Z.shiftl x1 12) (Z.lor (Z.shiftl x2 6) x3)) in
          if (0x10000 <=? c) && (c <? 0x110000) then Some (c, r3) else None
        | _, _, _ => None
        end
      | _ => None
      end
    else None
  end.

(** [data.decode("utf-8")], with fuel bounding the number of code points. *)
Fixpoint utf8_decode_fuel (fuel : nat) (bs : pybytes) : option pystr :=
  match bs with
  | [] => Some []
  | _ =>
    match fuel with
    | O => None
    | S fuel' =>
      match utf8_decode_char bs with
      | Some (c, rest) =>
        match utf8_decode_fuel fuel' rest with
        | Some cs => Some (c :: cs)
        | None => None
        end
      | None => None
      end
    end
  end.

Definition utf8_decode (bs : pybytes) : option pystr :=
  utf8_decode_fuel (length bs) bs.

(** ** Text-mode newline translation *)

(** [os.name], which fixes [os.linesep]. *)
Inductive OsName : Type := posix | nt.

Definition linesep (os : OsName) : pystr :=
  match os with
  | posix => [10]
  | nt => [13; 10]
  end.

(** A text file opened with the default [newline=None] writes every
    ["\n"] as [os.linesep]. *)
Definition translate_newlines (os : OsName) (text : pystr) : pystr :=
  flat_map (fun c => if c =? 10 then linesep os else [c]) text.

(** ** The world outside the script *)

(** The files, by the path the process names them with, and everything
    else the library and the operating system depend on (the network, the
    library's caches and models, disk quota, ...), kept abstract. *)
Record Sys (X : Type) : Type := MkSys {
  fs : gmap string (list Z);
  ext : X
}.
Arguments MkSys {X} _ _.
Arguments fs {X} _.
Arguments ext {X} _.

(** An outcome of a call: the value returned or the exception raised. *)
Abbreviation result A := (exn + A)%type.

(** The docling library, as far as the script uses it.  Every operation may
    raise and may change the world. *)
Record Library (X : Type) : Type := MkLibrary {
  DocumentConverter_obj : Type;
  ConversionResult_obj : Type;
  DoclingDocument_obj : Type;
  (** [from docling.document_converter import DocumentConverter] *)
  lib_import : Sys X -> result unit * Sys X;
  (** [DocumentConverter()] *)
  lib_new : Sys X -> result DocumentConverter_obj * Sys X;
  (** [converter.convert(source=...)] *)
  lib_convert :
    DocumentConverter_obj -> string -> Sys X -> result ConversionResult_obj * Sys X;
  (** [result.document] *)
  lib_document : ConversionResult_obj -> Sys X -> result DoclingDocument_obj * Sys X;
  (** [doc.export_to_markdown()] *)
  lib_export_to_markdown : DoclingDocument_obj -> Sys X -> result pystr * Sys X
}.
Arguments DocumentConverter_obj {X} _.
Arguments ConversionResult_obj {X} _.
Arguments DoclingDocument_obj {X} _.
Arguments lib_import {X} _ _.
Arguments lib_new {X} _ _.
Arguments lib_convert {X} _ _ _ _.
Arguments lib_document {X} _ _ _.
Arguments lib_export_to_markdown {X} _ _ _.

(** The modes of [open] that give a writable file. *)
Inductive OpenMode : Type := mode_w | mode_a | mode_x.

(** What the operating system and the build of the interpreter decide. *)
Record Platform (X : Type) : Type := MkPlatform {
  os_name : OsName;
  (** the chunk size of a text file ([TextIOWrapper._CHUNK_SIZE], 8192 in
      CPython) *)
  chunk_size : N;
  (** the buffer size of the binary file under it (the block size of the
      device, or [io.DEFAULT_BUFFER_SIZE]) *)
  buffer_size : N;
  (** the error, if any, of opening [path] for writing *)
  os_open_error : string -> OpenMode -> Sys X -> option exn;
  (** one [write] system call on [path] with the octets [data]: it raises,
      or the file takes the first [k] of them, [k] at least one *)
  os_write : string -> list Z -> Sys X -> exn + positive
}.
Arguments os_name {X} _.
Arguments chunk_size {X} _.
Arguments buffer_size {X} _.
Arguments os_open_error {X} _ _ _ _.
Arguments os_write {X} _ _ _ _.

(** An open text file, a [TextIOWrapper] over a [BufferedWriter] over the
    descriptor: its path, its encoding, the encoded octets that the text
    layer has not handed to the binary layer yet, and the octets in the
    buffer of the binary layer, which have not reached the operating system
    yet. *)
Record FileObj : Type := MkFileObj {
  fo_path : string;
  fo_encoding : Encoding;
  fo_pending : list Z;
  fo_buffer : list Z
}.

Definition set_pending (pend : list Z) (fo : FileObj) : FileObj :=
  MkFileObj (fo_path fo) (fo_encoding fo) pend (fo_buffer fo).

Definition set_buffer (buf : list Z) (fo : FileObj) : FileObj :=
  MkFileObj (fo_path fo) (fo_encoding fo) (fo_pending fo) buf.

(** The calls of a run with their outcomes.  The model records them in
    order in the [trace] of the state; the script cannot read it. *)
Inductive Event : Type :=
| EvImport (r : option exn)
| EvNew (r : option exn)
| EvConvert (source : string) (r : option exn)
| EvDocument (r : option exn)
| EvExport (r : result pystr)
| EvOpen (path : string) (mode : OpenMode) (enc : Encoding) (r : result nat)
| EvWrite (fd : nat) (text : pystr) (r : option exn)
| EvClose (fd : nat) (r : option pyexn).

(** The state of the process: the world, the files the script holds open,
    the command line and the environment the interpreter was started with,
    and the record of the calls made so far. *)
Record State (X : Type) : Type := MkState {
  sys : Sys X;
  open_files : gmap nat FileObj;
  argv : list string;
  environ : gmap string string;
  trace : list Event
}.
Arguments MkState {X} _ _ _ _ _.
Arguments sys {X} _.
Arguments open_files {X} _.
Arguments argv {X} _.
Arguments environ {X} _.
Arguments trace {X} _.

Inductive Outcome (X A : Type) : Type :=
| Returns (a : A) (s : State X)
| Raises (e : pyexn) (s : State X).
Arguments Returns {X A} _ _.
Arguments Raises {X A} _ _.

Definition final {X A} (o : Outcome X A) : State X :=
  match o with
  | Returns _ s => s
  | Raises _ s => s
  end.

Definition raised {A} (r : result A) : option exn :=
  match r with
  | inl e => Some e
  | inr _ => None
  end.

(** The computations of the script. *)
Definition M (X A : Type) : Type := State X -> Outcome X A.

Global Instance M_ret {X} : MRet (M X) := fun A a s => Returns a s.

Global Instance M_bind {X} : MBind (M X) := fun A B k m s =>
  match m s with
  | Returns a s1 => k a s1
  | Raises e s1 => Raises e s1
  end.

(** ** The calls the script makes *)

Section Shim.
Context {X : Type} (L : Library X) (P : Platform X).

Definition log (ev : Event) (s : State X) : State X :=
  MkState (sys s) (open_files s) (argv s) (environ s) (trace s ++ [ev]).

Definition set_sys (y : Sys X) (s : State X) : State X :=
  MkState y (open_files s) (argv s) (environ s) (trace s).

Definition set_fs (files : gmap string (list Z)) (s : State X) : State X :=
  set_sys (MkSys files (ext (sys s))) s.

Definition set_open_files (t : gmap nat FileObj) (s : State X) : State X :=
  MkState (sys s) t (argv s) (environ s) (trace s).

(** A call into the library: the library acts on the world, the call is
    logged with its outcome, and an exception propagates. *)
Definition call_lib {A} (op : Sys X -> result A * Sys X)
    (ev : result A -> Event) : M X A := fun s =>
  let '(r, y) := op (sys s) in
  match r with
  | inl e => Raises (Raised e) (log (ev r) (set_sys y s))
  | inr a => Returns a (log (ev r) (set_sys y s))
  end.

Definition import_DocumentConverter : M X unit :=
  call_lib (lib_import L) (fun r => EvImport (raised r)).

Definition DocumentConverter : M X (DocumentConverter_obj L) :=
  call_lib (lib_new L) (fun r => EvNew (raised r)).

Definition convert (converter : DocumentConverter_obj L) (source : string)
    : M X (ConversionResult_obj L) :=
  call_lib (lib_convert L converter source) (fun r => EvConvert source (raised r)).

Definition document (res : ConversionResult_obj L) : M X (DoclingDocument_obj L) :=
  call_lib (lib_document L res) (fun r => EvDocument (raised r)).

Definition export_to_markdown (doc : DoclingDocument_obj L) : M X pystr :=
  call_lib (lib_export_to_markdown L doc) EvExport.

(** [open(path, mode, encoding=enc)].  Mode ["w"] creates the file or
    truncates it, ["a"] creates it or keeps what it holds, ["x"] creates it
    and fails when it exists.  The file object is named by a descriptor
    that no open file has. *)
Definition open_error (path : string) (mode : OpenMode) (y : Sys X) : option exn :=
  match mode, fs y !! path with
  | mode_x, Some _ => Some (Exn "FileExistsError")
  | _, _ => os_open_error P path mode y
  end.

Definition opened_content (mode : OpenMode) (old : option (list Z)) : list Z :=
  match mode, old with
  | mode_a, Some data => data
  | _, _ => []
  end.

Definition py_open (path : string) (mode : OpenMode) (enc : Encoding) : M X nat := fun s =>
  match open_error path mode (sys s) with
  | Some e => Raises (Raised e) (log (EvOpen path mode enc (inl e)) s)
  | None =>
    let fd := fresh (dom (open_files s)) in
    let files := <[path := opened_content mode (fs (sys s) !! path)]> (fs (sys s)) in
    Returns fd
      (log (EvOpen path mode enc (inr fd))
        (set_open_files (<[fd := MkFileObj path enc [] []]> (open_files s))
          (set_fs files s)))
  end.

(** The file system once [data] has been added at the end of [path]. *)
Definition append_file (path : string) (data : list Z)
    (files : gmap string (list Z)) : gmap string (list Z) :=
  <[path := default [] (files !! path) ++ data]> files.

(** The number of octets of [data] that a system call which took [k] has
    written. *)
Definition taken (k : positive) (data : list Z) : nat :=
  Nat.min (Pos.to_nat k) (length data).

(** The loop of the binary layer over the [write] system call: as long as
    more than [keep] octets of [data] are left, hand all of them to the
    system, which takes some.  The loop ends with the exception of the
    system call that raised, if one did, the octets not written and the
    world.  [length data] calls are enough. *)
Fixpoint write_until (fuel : nat) (keep : N) (path : string) (data : list Z)
    (y : Sys X) : option exn * list Z * Sys X :=
  match fuel with
  | O => (None, data, y)
  | S fuel' =>
    if (keep <? N.of_nat (length data))%N then
      match os_write P path data y with
      | inl e => (Some e, data, y)
      | inr k =>
        write_until fuel' keep path (drop (taken k data) data)
          (MkSys (append_file path (take (taken k data) data) (fs y)) (ext y))
      end
    else (None, data, y)
  end.

(** The error, if any, of writing all of [data] to [path], with as many
    system calls as it takes, and the number of octets that reached the
    file before it. *)
Definition os_write_error (path : string) (data : list Z) (y : Sys X)
    : option (nat * exn) :=
  match write_until (length data) 0 path data y with
  | (Some e, rest, _) => Some ((length data - length rest)%nat, e)
  | (None, _, _) => None
  end.

(** [BufferedWriter.flush]: the buffer is written out; when a system call
    raises, the octets not written stay in the buffer. *)
Definition buffer_flush (fo : FileObj) (y : Sys X) : option exn * FileObj * Sys X :=
  let '(r, rest, y1) :=
    write_until (length (fo_buffer fo)) 0 (fo_path fo) (fo_buffer fo) y in
  (r, set_buffer rest fo, y1).

(** [BufferedWriter.write(b)]: octets that fit in the buffer are put
    there.  Otherwise the buffer is written out, then [b] itself as long as
    more than a buffer of it is left, and the rest is put in the buffer;
    when a system call raises on the way, what is left of [b] is dropped. *)
Definition buffer_write (b : list Z) (fo : FileObj) (y : Sys X)
    : option exn * FileObj * Sys X :=
  if (N.of_nat (length b) <=? buffer_size P - N.of_nat (length (fo_buffer fo)))%N then
    (None, set_buffer (fo_buffer fo ++ b) fo, y)
  else
    match buffer_flush fo y with
    | (Some e, fo1, y1) => (Some e, fo1, y1)
    | (None, fo1, y1) =>
      let '(r, rest, y2) :=
        write_until (length b) (buffer_size P) (fo_path fo) b y1 in
      match r with
      | Some e => (Some e, fo1, y2)
      | None => (None, set_buffer rest fo1, y2)
      end
    end.

(** The text layer hands its pending octets to the binary layer; they are
    no longer pending, whether the binary layer raises or not. *)
Definition text_writeflush (fo : FileObj) (y : Sys X) : option exn * FileObj * Sys X :=
  match fo_pending fo with
  | [] => (None, fo, y)
  | _ :: _ => buffer_write (fo_pending fo) (set_pending [] fo) y
  end.

(** The text layer takes the encoded octets [data]: pending octets that
    would make more than a chunk with them are handed on first, and the
    pending octets are handed on when they have reached the chunk size. *)
Definition text_write (data : list Z) (fo : FileObj) (y : Sys X)
    : option exn * FileObj * Sys X :=
  let '(r, fo1, y1) :=
    if (chunk_size P <? N.of_nat (length (fo_pending fo) + length data))%N
    then text_writeflush fo y
    else (None, fo, y) in
  match r with
  | Some e => (Some e, fo1, y1)
  | None =>
    let fo2 := set_pending (fo_pending fo1 ++ data) fo1 in
    if (chunk_size P <=? N.of_nat (length (fo_pending fo2)))%N
    then text_writeflush fo2 y1
    else (None, fo2, y1)
  end.

(** [TextIOWrapper.flush]: the pending octets go to the binary layer,
    which is flushed unless taking them raised. *)
Definition text_flush (fo : FileObj) (y : Sys X) : option exn * FileObj * Sys X :=
  match text_writeflush fo y with
  | (Some e, fo1, y1) => (Some e, fo1, y1)
  | (None, fo1, y1) => buffer_flush fo1 y1
  end.

(** [TextIOWrapper.close]: the file is flushed, then the binary layer is
    closed, which flushes its buffer once more, whether the first flush
    raised or not.  An exception of the first flush that the second does
    not repeat goes up; when both raise, the second goes up with the first
    as its context. *)
Definition text_close (fo : FileObj) (y : Sys X) : option pyexn * Sys X :=
  let '(r1, fo1, y1) := text_flush fo y in
  let '(r2, _, y2) := buffer_flush fo1 y1 in
  (match r1, r2 with
   | None, None => None
   | Some e1, None => Some (Raised e1)
   | None, Some e2 => Some (Raised e2)
   | Some e1, Some e2 => Some (RaisedDuring e2 (Raised e1))
   end, y2).

(** [f.write(text)]: the text is newline-translated and encoded, and the
    octets are given to the text layer.  The call returns the number of
    characters. *)
Definition write (fd : nat) (text : pystr) : M X nat := fun s =>
  match open_files s !! fd with
  | None =>
    Raises (Raised (Exn "ValueError"))
      (log (EvWrite fd text (Some (Exn "ValueError"))) s)
  | Some fo =>
    match encode (fo_encoding fo) (translate_newlines (os_name P) text) with
    | None =>
      Raises (Raised (Exn "UnicodeEncodeError"))
        (log (EvWrite fd text (Some (Exn "UnicodeEncodeError"))) s)
    | Some data =>
      let '(r, fo1, y1) := text_write data fo (sys s) in
      let s1 := set_open_files (<[fd := fo1]> (open_files s)) (set_sys y1 s) in
      match r with
      | None => Returns (length text) (log (EvWrite fd text None) s1)
      | Some e => Raises (Raised e) (log (EvWrite fd text (Some e)) s1)
      end
    end
  end.

(** [f.close()]: the file is flushed and closed, and the descriptor is
    released whether that raised or not.  Closing a closed file does
    nothing. *)
Definition close (fd : nat) : M X unit := fun s =>
  match open_files s !! fd with
  | None => Returns tt s
  | Some fo =>
    let '(r, y1) := text_close fo (sys s) in
    let s1 := set_open_files (delete fd (open_files s)) (set_sys y1 s) in
    match r with
    | None => Returns tt (log (EvClose fd None) s1)
    | Some top => Raises top (log (EvClose fd (Some top)) s1)
    end
  end.

(** [with EXPR as f: BODY] for a file: [f.__exit__] closes the file on
    every way out of the body and suppresses nothing.  An exception of the
    close replaces the one of the body, which ends its chain of contexts. *)
Definition with_ {A} (expr : M X nat) (body : nat -> M X A) : M X unit := fun s =>
  match expr s with
  | Raises e s1 => Raises e s1
  | Returns f s1 =>
    match body f s1 with
    | Returns _ s2 => close f s2
    | Raises e s2 =>
      match close f s2 with
      | Returns _ s3 => Raises e s3
      | Raises e' s3 => Raises (set_context e' e) s3
      end
    end
  end.

(** ** The script *)

Definition script : M X unit :=
  _ ← import_DocumentConverter;
  converter ← DocumentConverter;
  result ← convert converter "https://arxiv.org/pdf/2206.01062";
  doc ← document result;
  md_result ← export_to_markdown doc;
  with_ (py_open "output.md" mode_w utf_8) (fun f =>
    write f md_result).

End Shim.

(** ** Reading a run *)

Definition error_of {X A} (o : Outcome X A) : option pyexn :=
  match o with
  | Returns _ _ => None
  | Raises e _ => Some e
  end.

Definition outcome_of {X} (oe : option pyexn) (s : State X) : Outcome X unit :=
  match oe with
  | None => Returns tt s
  | Some e => Raises e s
  end.

(** The exception that leaves a [with] statement whose body ended with
    [body] and whose [__exit__] ended with [exit]. *)
Definition with_error (body : option exn) (exit : option pyexn) : option pyexn :=
  match body, exit with
  | None, _ => exit
  | Some e, None => Some (Raised e)
  | Some e, Some top => Some (set_context top (Raised e))
  end.

(** The exception, if any, that a logged call raised. *)
Definition event_error (ev : Event) : option exn :=
  match ev with
  | EvImport r | EvNew r | EvConvert _ r | EvDocument r => r
  | EvExport r => raised r
  | EvOpen _ _ _ r => raised r
  | EvWrite _ _ r => r
  | EvClose _ r => exn_of <$> r
  end.

(** The call sites of the script, in the order of its text. *)
Inductive Site : Type :=
| site_import | site_new | site_convert | site_document | site_export
| site_open | site_write | site_close.

Global Instance Site_eq_dec : EqDecision Site.
Proof. solve_decision. Defined.

Definition site (ev : Event) : Site :=
  match ev with
  | EvImport _ => site_import
  | EvNew _ => site_new
  | EvConvert _ _ => site_convert
  | EvDocument _ => site_document
  | EvExport _ => site_export
  | EvOpen _ _ _ _ => site_open
  | EvWrite _ _ _ => site_write
  | EvClose _ _ => site_close
  end.

Definition program_order : list Site :=
  [site_import; site_new; site_convert; site_document; site_export;
   site_open; site_write; site_close].

(** The three stages the specification speaks of: conversion (with the
    import and the construction of the converter before it), Markdown
    export (with the access to the document), and the file write (the
    whole [with] statement). *)
Definition stage (ev : Event) : nat :=
  match site ev with
  | site_import | site_new | site_convert => 1
  | site_document | site_export => 2
  | site_open | site_write | site_close => 3
  end%nat.

(** Starting the interpreter with another command line and environment. *)
Definition set_inputs {X} (args : list string) (env : gmap string string)
    (s : State X) : State X :=
  MkState (sys s) (open_files s) args env (trace s).

Definition map_final {X A} (f : State X -> State X) (o : Outcome X A) : Outcome X A :=
  match o with
  | Returns a s => Returns a (f s)
  | Raises e s => Raises e (f s)
  end.

(** The state of the process once the world has become [y] and the calls
    [evs] have been logged. *)
Definition advance {X} (y : Sys X) (evs : list Event) (s : State X) : State X :=
  MkState y (open_files s) (argv s) (environ s) (trace s ++ evs).

Definition source_url : string := "https://arxiv.org/pdf/2206.01062".
Definition output_path : string := "output.md".

(** The [with] statement of the script, for the Markdown [md]. *)
Definition write_output {X} (P : Platform X) (md : pystr) : M X unit :=
  with_ P (py_open P output_path mode_w utf_8) (fun f => write P f md).

(** The library calls of the script, when none of them raises: from the
    world [y0] they return the Markdown [md] and leave the world [y5]. *)
Definition exports {X} (L : Library X) (y0 : Sys X) (md : pystr) (y5 : Sys X) : Prop :=
  exists u y1 converter y2 res y3 doc y4,
    lib_import L y0 = (inr u, y1) /\
    lib_new L y1 = (inr converter, y2) /\
    lib_convert L converter source_url y2 = (inr res, y3) /\
    lib_document L res y3 = (inr doc, y4) /\
    lib_export_to_markdown L doc y4 = (inr md, y5).

(** The library calls of the script up to the first that raises: the calls
    logged, the Markdown or the exception they end with, and the world they
    leave. *)
Inductive lib_run {X} (L : Library X) (y0 : Sys X)
    : list Event -> result pystr -> Sys X -> Prop :=
| run_import_raises e y1 :
    lib_import L y0 = (inl e, y1) ->
    lib_run L y0 [EvImport (Some e)] (inl e) y1
| run_new_raises u y1 e y2 :
    lib_import L y0 = (inr u, y1) ->
    lib_new L y1 = (inl e, y2) ->
    lib_run L y0 [EvImport None; EvNew (Some e)] (inl e) y2
| run_convert_raises u y1 converter y2 e y3 :
    lib_import L y0 = (inr u, y1) ->
    lib_new L y1 = (inr converter, y2) ->
    lib_convert L converter source_url y2 = (inl e, y3) ->
    lib_run L y0 [EvImport None; EvNew None; EvConvert source_url (Some e)] (inl e) y3
| run_document_raises u y1 converter y2 res y3 e y4 :
    lib_import L y0 = (inr u, y1) ->
    lib_new L y1 = (inr converter, y2) ->
    lib_convert L converter source_url y2 = (inr res, y3) ->
    lib_document L res y3 = (inl e, y4) ->
    lib_run L y0
      [EvImport None; EvNew None; EvConvert source_url None; EvDocument (Some e)]
      (inl e) y4
| run_export_raises u y1 converter y2 res y3 doc y4 e y5 :
    lib_import L y0 = (inr u, y1) ->
    lib_new L y1 = (inr converter, y2) ->
    lib_convert L converter source_url y2 = (inr res, y3) ->
    lib_document L res y3 = (inr doc, y4) ->
    lib_export_to_markdown L doc y4 = (inl e, y5) ->
    lib_run L y0
      [EvImport None; EvNew None; EvConvert source_url None; EvDocument None;
       EvExport (inl e)]
      (inl e) y5
| run_exports md y5 :
    exports L y0 md y5 ->
    lib_run L y0
      [EvImport None; EvNew None; EvConvert source_url None; EvDocument None;
       EvExport (inr md)]
      (inr md) y5.

(** The calls of the [with] statement, with the exception that leaves it.
    After a write that raised, the file object holds no octets and the
    close returns. *)
Inductive file_log (md : pystr) : list Event -> option pyexn -> Prop :=
| log_open_raises e :
    file_log md [EvOpen output_path mode_w utf_8 (inl e)] (Some (Raised e))
| log_opened fd rw rc :
    (is_Some rw -> rc = None) ->
    file_log md
      [EvOpen output_path mode_w utf_8 (inr fd); EvWrite fd md rw; EvClose fd rc]
      (with_error rw rc).

(** The logs a run of the script can leave, with the exception that ends
    the run, if any. *)
Inductive script_log {X} (L : Library X) (y0 : Sys X)
    : list Event -> option pyexn -> Prop :=
| log_lib_raises evs e y :
    lib_run L y0 evs (inl e) y ->
    script_log L y0 evs (Some (Raised e))
| log_lib_exports evs md y evs' oe :
    lib_run L y0 evs (inr md) y ->
    file_log md evs' oe ->
    script_log L y0 (evs ++ evs') oe.

(** A property of the world that no call of the library destroys. *)
Definition lib_preserves {X} (L : Library X) (Q : Sys X -> Prop) : Prop :=
  (forall y, Q y -> Q (lib_import L y).2) /\
  (forall y, Q y -> Q (lib_new L y).2) /\
  (forall converter source y, Q y -> Q (lib_convert L converter source y).2) /\
  (forall res y, Q y -> Q (lib_document L res y).2) /\
  (forall doc y, Q y -> Q (lib_export_to_markdown L doc y).2).

(** A computation that does not look at the command line and the
    environment: started with others, it does the same and leaves them. *)
Definition ignores_inputs {X A} (m : M X A) : Prop :=
  forall args env s,
    m (set_inputs args env s) = map_final (set_inputs args env) (m s).

(** [R pre ev post] holds wherever [evs] splits as [pre ++ ev :: post],
    [before] being what comes before [evs]. *)
Fixpoint at_every_split (R : list Event -> Event -> list Event -> Prop)
    (before : list Event) (evs : list Event) : Prop :=
  match evs with
  | [] => True
  | ev :: post => R before ev post /\ at_every_split R (before ++ [ev]) post
  end.

(** What holds of a call [ev] of the script, made after the calls [pre] and
    before the calls [post]: the export is called after the conversion has
    returned, the file is opened, written and closed after the export has
    returned, and when the call raises, no call follows, but the closing of
    the file after a write that raised. *)
Definition in_sequence (pre : list Event) (ev : Event) (post : list Event) : Prop :=
  (site ev = site_export -> In (EvConvert source_url None) pre) /\
  (stage ev = 3%nat -> exists md, In (EvExport (inr md)) pre) /\
  (is_Some (event_error ev) ->
   post = [] \/ (site ev = site_write /\ exists fd rc, post = [EvClose fd rc])).


(** ** Sample libraries and platforms

    A library over a world that only counts the imports made so far.  The
    conversion raises [conv] if it is an exception and the export returns
    [md]. *)
Definition sample_library (conv : option exn) (md : pystr) : Library nat :=
  MkLibrary nat unit unit unit
    (fun y => (inr tt, MkSys (fs y) (S (ext y))))
    (fun y => (inr tt, y))
    (fun _ _ y => (match conv with Some e => inl e | None => inr tt end, y))
    (fun _ y => (inr tt, y))
    (fun _ y => (inr md, y)).

(** A system call that takes all the octets it is given. *)
Definition takes_all (data : list Z) : positive := Pos.of_nat (length data).

(** A platform on which no system call fails, with the sizes of CPython on
    a device with blocks of 4096 octets. *)
Definition sample_platform (os : OsName) : Platform nat :=
  MkPlatform nat os 8192 4096 (fun _ _ _ => None) (fun _ data _ => inr (takes_all data)).

(** A platform on which no file can be opened for writing. *)
Definition readonly_platform : Platform nat :=
  MkPlatform nat posix 8192 4096
    (fun _ _ _ => Some (Exn "PermissionError")) (fun _ data _ => inr (takes_all data)).

(** A platform whose disk is full from the second import on. *)
Definition full_disk_platform : Platform nat :=
  MkPlatform nat posix 8192 4096 (fun _ _ _ => None)
    (fun _ data y => if (2 <=? ext y)%nat then inl (Exn "OSError") else inr (takes_all data)).

(** A platform with a chunk of four octets and a buffer of two on which
    every write to the disk fails. *)
Definition failing_disk_platform : Platform nat :=
  MkPlatform nat posix 4 2 (fun _ _ _ => None) (fun _ _ _ => inl (Exn "OSError")).

(** A fresh process in an empty directory, and one in a directory that
    holds an [output.md] and a [notes.txt]. *)
Definition boot : State nat := MkState (MkSys ∅ 0%nat) ∅ [] ∅ [].

Definition boot_with_files : State nat :=
  MkState (MkSys (<["notes.txt" := [110; 111; 116; 101]]> (<["output.md" := [111; 108; 100]]> ∅)) 0%nat)
    ∅ ["simple.py"] ∅ [].

(** ["# T\n"], and a text with a lone surrogate, which UTF-8 cannot encode. *)
Definition sample_markdown : pystr := [35; 32; 84; 10].
Definition surrogate_markdown : pystr := [35; 0xD800].

(** A library whose Markdown export raises. *)
Definition export_failing_library : Library nat :=
  MkLibrary nat unit unit unit
    (fun y => (inr tt, MkSys (fs y) (S (ext y))))
    (fun y => (inr tt, y))
    (fun _ _ y => (inr tt, y))
    (fun _ y => (inr tt, y))
    (fun _ y => (inl (Exn "RuntimeError"), y)).

(** A platform with the sizes of CPython on which a file grows to three
    octets and no further. *)
Definition small_disk_platform : Platform nat :=
  MkPlatform nat posix 8192 4096 (fun _ _ _ => None)
    (fun path _ y =>
       let size := length (default [] (fs y !! path)) in
       if (3 <=? size)%nat then inl (Exn "OSError")
       else inr (Pos.of_nat (3 - size))).

(** Undoing the newline translation: on Windows a carriage return that
    stands before a line feed was put there by the translation. *)
Fixpoint restore_newlines_nt (text : pystr) : pystr :=
  match text with
  | [] => []
  | c :: rest =>
    if (c =? 13) && (match head rest with Some c' => c' =? 10 | None => false end)
    then restore_newlines_nt rest
    else c :: restore_newlines_nt rest
  end.

Definition restore_newlines (os : OsName) (text : pystr) : pystr :=
  match os with
  | posix => text
  | nt => restore_newlines_nt text
  end.

(** * Properties *)

(** ** UTF-8: decoding what was encoded *)

Lemma lor_pack hi lo k :
  0 <= k -> 0 <= lo < 2 ^ k -> Z.lor (hi * 2 ^ k) lo = hi * 2 ^ k + lo.
Proof.
  intros Hk Hlo.
  assert (Hland : Z.land (hi * 2 ^ k) lo = 0).
  { apply Z.bits_inj'. intros n Hn. rewrite Z.land_spec, Z.bits_0.
    destruct (Z.lt_ge_cases n k).
    - by rewrite Z.mul_pow2_bits_low.
    - rewrite <- (Z.mod_small lo (2 ^ k)) by lia.
      rewrite Z.mod_pow2_bits_high by lia. apply andb_false_r. }
  pose proof (Z.add_lor_land (hi * 2 ^ k) lo). lia.
Qed.

Ltac bits_to_arith :=
  repeat match goal with
  | |- context [Z.shiftr ?c ?k] => rewrite (Z.shiftr_div_pow2 c k) by lia
  | |- context [Z.shiftl ?c ?k] => rewrite (Z.shiftl_mul_pow2 c k) by lia
  | |- context [Z.land ?c 0x3F] =>
    change (Z.land c 0x3F) with (Z.land c (Z.ones 6)); rewrite (Z.land_ones c 6) by lia
  | |- context [Z.land ?c 0x1F] =>
    change (Z.land c 0x1F) with (Z.land c (Z.ones 5)); rewrite (Z.land_ones c 5) by lia
  | |- context [Z.land ?c 0x0F] =>
    change (Z.land c 0x0F) with (Z.land c (Z.ones 4)); rewrite (Z.land_ones c 4) by lia
  | |- context [Z.land ?c 0x07] =>
    change (Z.land c 0x07) with (Z.land c (Z.ones 3)); rewrite (Z.land_ones c 3) by lia
  end.

Ltac dlia :=
  change (2 ^ 3) with 8 in *; change (2 ^ 4) with 16 in *;
  change (2 ^ 5) with 32 in *; change (2 ^ 6) with 64 in *;
  change (2 ^ 12) with 4096 in *; change (2 ^ 18) with 262144 in *;
  first [ Z.div_mod_to_equations; lia | exfalso; Z.div_mod_to_equations; lia ].

Lemma lor_C0 x : 0 <= x < 64 -> Z.lor 0xC0 x = 192 + x.
Proof. intros. exact (lor_pack 3 x 6 ltac:(lia) ltac:(lia)). Qed.

Lemma lor_80 x : 0 <= x < 64 -> Z.lor 0x80 x = 128 + x.
Proof. intros. exact (lor_pack 2 x 6 ltac:(lia) ltac:(lia)). Qed.

Lemma lor_E0 x : 0 <= x < 16 -> Z.lor 0xE0 x = 224 + x.
Proof. intros. exact (lor_pack 14 x 4 ltac:(lia) ltac:(lia)). Qed.

Lemma lor_F0 x : 0 <= x < 8 -> Z.lor 0xF0 x = 240 + x.
Proof. intros. exact (lor_pack 30 x 3 ltac:(lia) ltac:(lia)). Qed.

(** The octets of a code point, in arithmetic. *)
Lemma utf8_char_inv c bs :
  utf8_char c = Some bs ->
  (0 <= c < 0x80 /\ bs = [c]) \/
  (0x80 <= c < 0x800 /\ bs = [192 + c / 64; 128 + c mod 64]) \/
  ((0x800 <= c < 0xD800 \/ 0xE000 <= c < 0x10000) /\
     bs = [224 + c / 4096; 128 + (c / 64) mod 64; 128 + c mod 64]) \/
  (0x10000 <= c < 0x110000 /\
     bs = [240 + c / 262144; 128 + (c / 4096) mod 64; 128 + (c / 64) mod 64;
           128 + c mod 64]).
Proof.
  unfold utf8_char. intros H.
  repeat case_match; simplify_eq; bits_to_arith.
  - left. split; [lia|done].
  - right; left. split; [lia|].
    rewrite lor_C0, lor_80; [done|dlia|dlia].
  - right; right; left. split; [lia|].
    rewrite lor_E0, !lor_80; [done|dlia|dlia|dlia].
  - right; right; right. split; [lia|].
    rewrite lor_F0, !lor_80; [done|dlia|dlia|dlia|dlia].
Qed.

Lemma continuation_spec b : 128 <= b < 192 -> continuation b = Some (b - 128).
Proof.
  intros Hb. unfold continuation.
  destruct ((0x80 <=? b) && (b <? 0xC0)) eqn:E; [|lia].
  f_equal. bits_to_arith. dlia.
Qed.

Lemma pack2 c :
  0x80 <= c < 0x800 ->
  Z.lor (Z.shiftl (Z.land (192 + c / 64) 0x1F) 6) (c mod 64) = c.
Proof.
  intros Hc. bits_to_arith. rewrite lor_pack by dlia. dlia.
Qed.

Lemma pack3 c :
  0x800 <= c < 0x10000 ->
  Z.lor (Z.shiftl (Z.land (224 + c / 4096) 0x0F) 12)
        (Z.lor (Z.shiftl ((c / 64) mod 64) 6) (c mod 64)) = c.
Proof.
  intros Hc. bits_to_arith.
  rewrite (lor_pack _ _ 6) by dlia. rewrite (lor_pack _ _ 12) by dlia. dlia.
Qed.

Lemma pack4 c :
  0x10000 <= c < 0x110000 ->
  Z.lor (Z.shiftl (Z.land (240 + c / 262144) 0x07) 18)
        (Z.lor (Z.shiftl ((c / 4096) mod 64) 12)
               (Z.lor (Z.shiftl ((c / 64) mod 64) 6) (c mod 64))) = c.
Proof.
  intros Hc. bits_to_arith.
  rewrite (lor_pack _ _ 6) by dlia. rewrite (lor_pack _ _ 12) by dlia.
  rewrite (lor_pack _ _ 18) by dlia. dlia.
Qed.

Lemma utf8_decode_char_encode c bs rest :
  utf8_char c = Some bs -> utf8_decode_char (bs ++ rest) = Some (c, rest).
Proof.
  intros H. apply utf8_char_inv in H.
  destruct H as [[Hc ->]|[[Hc ->]|[[Hc ->]|[Hc ->]]]]; simpl.
  - destruct ((0 <=? c) && (c <? 128)) eqn:E; [done|lia].
  - destruct ((0 <=? 192 + c / 64) && (192 + c / 64 <? 128)) eqn:E1; [dlia|].
    destruct ((192 <=? 192 + c / 64) && (192 + c / 64 <? 224)) eqn:E2; [|dlia].
    rewrite continuation_spec by dlia.
    rewrite Z.add_simpl_l, pack2 by done.
    destruct (128 <=? c) eqn:E3; [done|lia].
  - destruct ((0 <=? 224 + c / 4096) && (224 + c / 4096 <? 128)) eqn:E1; [dlia|].
    destruct ((192 <=? 224 + c / 4096) && (224 + c / 4096 <? 224)) eqn:E2; [dlia|].
    destruct ((224 <=? 224 + c / 4096) && (224 + c / 4096 <? 240)) eqn:E3; [|dlia].
    rewrite !continuation_spec by dlia.
    rewrite !Z.add_simpl_l, pack3 by lia.
    destruct ((2048 <=? c) && negb ((55296 <=? c) && (c <=? 57343))) eqn:E4; [done|].
    rewrite andb_false_iff, negb_false_iff, andb_true_iff in E4. lia.
  - destruct ((0 <=? 240 + c / 262144) && (240 + c / 262144 <? 128)) eqn:E1; [dlia|].
    destruct ((192 <=? 240 + c / 262144) && (240 + c / 262144 <? 224)) eqn:E2; [dlia|].
    destruct ((224 <=? 240 + c / 262144) && (240 + c / 262144 <? 240)) eqn:E3; [dlia|].
    destruct ((240 <=? 240 + c / 262144) && (240 + c / 262144 <? 248)) eqn:E4; [|dlia].
    rewrite !continuation_spec by dlia.
    rewrite !Z.add_simpl_l, pack4 by lia.
    destruct ((65536 <=? c) && (c <? 1114112)) eqn:E5; [done|lia].
Qed.

Lemma utf8_char_nonempty c bs : utf8_char c = Some bs -> (0 < length bs)%nat.
Proof.
  intros H. apply utf8_char_inv in H.
  destruct H as [[_ ->]|[[_ ->]|[[_ ->]|[_ ->]]]]; simpl; lia.
Qed.

Lemma utf8_decode_fuel_encode text : forall data fuel,
  encode utf_8 text = Some data -> (length text <= fuel)%nat ->
  utf8_decode_fuel fuel data = Some text.
Proof.
  induction text as [|c text IH]; intros data fuel Henc Hfuel; simpl in Henc.
  - simplify_eq. by destruct fuel.
  - destruct (utf8_char c) as [b|] eqn:Hc; [|done].
    destruct (encode utf_8 text) as [bs|] eqn:Hbs; [|done]. simplify_eq.
    pose proof (utf8_char_nonempty _ _ Hc) as Hlen.
    destruct fuel as [|fuel]; [simpl in Hfuel; lia|].
    destruct b as [|b0 b]; [simpl in Hlen; lia|].
    change ((b0 :: b) ++ bs) with (b0 :: (b ++ bs)).
    cbn [utf8_decode_fuel].
    change (b0 :: (b ++ bs)) with ((b0 :: b) ++ bs).
    rewrite (utf8_decode_char_encode c (b0 :: b) bs Hc).
    rewrite (IH bs fuel eq_refl) by (simpl in Hfuel; lia). done.
Qed.

Lemma encode_length text data :
  encode utf_8 text = Some data -> (length text <= length data)%nat.
Proof.
  revert data. induction text as [|c text IH]; intros data Henc; simpl in *.
  - lia.
  - destruct (utf8_char c) as [b|] eqn:Hc; [|done].
    destruct (encode utf_8 text) as [bs|] eqn:Hbs; [|done]. simplify_eq.
    pose proof (utf8_char_nonempty _ _ Hc). specialize (IH bs eq_refl).
    rewrite length_app. lia.
Qed.

(** Reading back as UTF-8 what was written as UTF-8 gives the text. *)
Lemma utf8_decode_encode text data :
  encode utf_8 text = Some data -> utf8_decode data = Some text.
Proof.
  intros H. apply utf8_decode_fuel_encode; [done|]. by apply encode_length.
Qed.

Lemma encode_nil_inv text : encode utf_8 text = Some [] -> text = [].
Proof.
  intros H. apply encode_length in H. destruct text; [done|simpl in H; lia].
Qed.

Lemma translate_newlines_nil_inv os text :
  translate_newlines os text = [] -> text = [].
Proof.
  destruct text as [|c text]; [done|]. unfold translate_newlines; simpl.
  destruct (c =? 10); [destruct os|]; done.
Qed.

Lemma translate_newlines_posix text : translate_newlines posix text = text.
Proof.
  unfold translate_newlines. induction text as [|c text IH]; [done|].
  cbn [flat_map]. rewrite IH. destruct (Z.eqb_spec c 10); by subst.
Qed.

(** ** Writing to a file *)

Section Writes.
Context {X : Type} (P : Platform X).

Lemma write_until_nil fuel keep path (y : Sys X) :
  write_until P fuel keep path [] y = (None, [], y).
Proof. destruct fuel; [done|]. simpl. by destruct keep. Qed.

Lemma taken_bounds k (data : list Z) :
  data ≠ [] → (0 < taken k data ≤ length data)%nat.
Proof.
  intros Hne. unfold taken. pose proof (Pos2Nat.is_pos k).
  destruct data; [done|]. simpl length. lia.
Qed.

(** The loop makes at most [length data] system calls. *)
Lemma write_until_fuel keep path : ∀ fuel fuel' data (y : Sys X),
  (length data ≤ fuel)%nat → (length data ≤ fuel')%nat →
  write_until P fuel keep path data y = write_until P fuel' keep path data y.
Proof.
  induction fuel as [|fuel IH]; intros fuel' data y Hf Hf'.
  - destruct data; [|simpl in Hf; lia]. by rewrite !write_until_nil.
  - destruct fuel' as [|fuel'].
    { destruct data; [|simpl in Hf'; lia]. by rewrite !write_until_nil. }
    simpl. destruct (keep <? _)%N eqn:Hkeep; [|done].
    destruct (os_write P path data y) as [e|k]; [done|].
    assert (data ≠ []) as Hne by (intros ->; apply N.ltb_lt in Hkeep; simpl in Hkeep; lia).
    pose proof (taken_bounds k data Hne).
    apply IH; rewrite length_drop; lia.
Qed.

(** Writing out all of [data] is writing it until [keep] octets or fewer
    are left, then writing out these. *)
Lemma write_until_all keep path : ∀ fuel data (y : Sys X),
  (length data ≤ fuel)%nat →
  write_until P fuel 0 path data y
  = match write_until P fuel keep path data y with
    | (Some e, rest, y1) => (Some e, rest, y1)
    | (None, rest, y1) => write_until P (length rest) 0 path rest y1
    end.
Proof.
  induction fuel as [|fuel IH]; intros data y Hf.
  { destruct data; [|simpl in Hf; lia]. done. }
  cbn [write_until]. destruct (keep <? _)%N eqn:Hkeep.
  - assert ((0 <? N.of_nat (length data))%N = true) as ->
      by (apply N.ltb_lt in Hkeep; apply N.ltb_lt; lia).
    destruct (os_write P path data y) as [e|k]; [done|].
    assert (data ≠ []) as Hne
      by (intros ->; apply N.ltb_lt in Hkeep; simpl in Hkeep; lia).
    pose proof (taken_bounds k data Hne).
    apply IH. rewrite length_drop; lia.
  - change (write_until P (S fuel) 0 path data y
            = write_until P (length data) 0 path data y).
    by apply write_until_fuel.
Qed.

Section At.
Context (files : gmap string (list Z)) (x : X) (path : string).

Local Abbreviation W c := (MkSys (<[path := c]> files) x).

Lemma append_file_at c d :
  MkSys (append_file path d (fs (W c))) (ext (W c)) = W (c ++ d).
Proof. unfold append_file; simpl. by rewrite lookup_insert_eq, insert_insert_eq. Qed.

Lemma W_eq_inv {A B} (a a' : A) (b b' : B) c c' :
  (a, b, W c) = (a', b', W c') → a = a' ∧ b = b' ∧ c = c'.
Proof.
  intros H. injection H as -> -> H. split; [done|]. split; [done|].
  apply (f_equal (lookup path)) in H. rewrite !lookup_insert_eq in H.
  by simplify_eq.
Qed.

(** What the loop leaves: the octets written are in the file, the others
    are handed back, and the loop has stopped at the system call that
    raised or with no more than [keep] octets left. *)
Lemma write_until_at keep : ∀ fuel data c,
  ∃ r done rest,
    write_until P fuel keep path data (W c) = (r, rest, W (c ++ done)) ∧
    data = done ++ rest ∧
    (∀ e, r = Some e → rest ≠ [] ∧ os_write P path rest (W (c ++ done)) = inl e) ∧
    (r = None → (length data ≤ fuel)%nat → (N.of_nat (length rest) ≤ keep)%N).
Proof.
  induction fuel as [|fuel IH]; intros data c.
  { exists None, [], data. rewrite app_nil_r. repeat split; try done.
    intros _ Hf. destruct data; simpl in *; lia. }
  cbn [write_until]. destruct (keep <? _)%N eqn:Hkeep.
  - assert (data ≠ []) as Hne
      by (intros ->; apply N.ltb_lt in Hkeep; simpl in Hkeep; lia).
    destruct (os_write P path data (W c)) as [e|k] eqn:Hos.
    + exists (Some e), [], data. rewrite app_nil_r.
      repeat split; try done; intros; by simplify_eq.
    + pose proof (taken_bounds k data Hne).
      rewrite append_file_at.
      destruct (IH (drop (taken k data) data) (c ++ take (taken k data) data))
        as (r & done & rest & -> & Hdata & Hr & Hn).
      exists r, (take (taken k data) data ++ done), rest.
      rewrite !app_assoc. split; [done|]. split.
      { rewrite <- app_assoc, <- Hdata. by rewrite take_drop. }
      split; [done|]. intros Hnone Hf. apply Hn; [done|].
      rewrite length_drop. lia.
  - exists None, [], data. rewrite app_nil_r. repeat split; try done.
    intros _ _. apply N.ltb_ge in Hkeep. done.
Qed.

(** A flush that raised raises again when it is repeated. *)
Lemma write_until_again rest (y : Sys X) e :
  rest ≠ [] → os_write P path rest y = inl e →
  write_until P (length rest) 0 path rest y = (Some e, rest, y).
Proof.
  intros Hne Hos. destruct rest as [|b rest]; [done|].
  cbn [length write_until]. by rewrite Hos.
Qed.

Context (enc : Encoding).

Local Abbreviation F pend buf := (MkFileObj path enc pend buf).

(** Closing a file whose text layer holds nothing: the buffer is flushed,
    and flushed again by the close of the binary layer, which repeats the
    failure of the first flush. *)
Lemma text_close_buffer buf c r rest c1 :
  write_until P (length buf) 0 path buf (W c) = (r, rest, W c1) →
  (∀ e, r = Some e → rest ≠ [] ∧ os_write P path rest (W c1) = inl e) →
  (r = None → rest = []) →
  text_close P (F [] buf) (W c)
  = (match r with
     | None => None
     | Some e => Some (RaisedDuring e (Raised e))
     end, W c1).
Proof.
  intros Hw Hsome Hnone.
  unfold text_close, text_flush, text_writeflush, buffer_flush; simpl.
  rewrite Hw. simpl. destruct r as [e|].
  - destruct (Hsome e eq_refl) as [Hne Hos].
    by rewrite (write_until_again rest _ e Hne Hos).
  - rewrite (Hnone eq_refl). done.
Qed.

(** Giving octets to the binary layer of a file that was just opened. *)
Lemma buffer_write_fresh data c r done rest :
  write_until P (length data) 0 path data (W c) = (r, rest, W (c ++ done)) →
  ∃ ra buf c1,
    buffer_write P data (F [] []) (W c) = (ra, F [] buf, W c1) ∧
    match ra with
    | Some e =>
      r = Some e ∧ buf = [] ∧ c1 = c ++ done ∧
      (buffer_size P < N.of_nat (length data))%N
    | None =>
      write_until P (length buf) 0 path buf (W c1) = (r, rest, W (c ++ done))
    end.
Proof.
  intros Hall. unfold buffer_write, buffer_flush; simpl.
  destruct (_ <=? _)%N eqn:Hfit.
  { by exists None, data, c. }
  rewrite (write_until_all (buffer_size P)) in Hall by done.
  destruct (write_until_at (buffer_size P) (length data) data c)
    as (rd & done' & rest' & Hd & _ & _ & _).
  rewrite Hd in Hall |- *. apply N.leb_gt in Hfit.
  destruct rd as [e|].
  - exists (Some e), [], (c ++ done'). split; [done|].
    apply W_eq_inv in Hall as (-> & -> & ->). split; [done|]. split; [done|].
    split; [done|lia].
  - by exists None, rest', (c ++ done').
Qed.

(** Writing to a file that was just opened, then closing it. *)
Lemma text_write_close data c r done rest :
  write_until P (length data) 0 path data (W c) = (r, rest, W (c ++ done)) →
  (∀ e, r = Some e → rest ≠ [] ∧ os_write P path rest (W (c ++ done)) = inl e) →
  (r = None → rest = []) →
  ∃ rw fo1 c1 rc,
    text_write P data (F [] []) (W c) = (rw, fo1, W c1) ∧
    text_close P fo1 (W c1) = (rc, W (c ++ done)) ∧
    match r with
    | None => rw = None ∧ rc = None
    | Some e =>
      (rw = Some e ∧ rc = None ∧
       (chunk_size P ≤ N.of_nat (length data))%N ∧
       (buffer_size P < N.of_nat (length data))%N) ∨
      (rw = None ∧ rc = Some (Raised e) ∧
       (N.of_nat (length data) < chunk_size P)%N ∧
       (buffer_size P < N.of_nat (length data))%N) ∨
      (rw = None ∧ rc = Some (RaisedDuring e (Raised e)))
    end.
Proof.
  intros Hall Hsome Hnone.
  destruct (buffer_write_fresh data c r done rest Hall) as (ra & buf & c1 & Ha & Hra).
  assert (Hclose : ra = None →
            text_close P (F [] buf) (W c1)
            = (match r with
               | None => None
               | Some e => Some (RaisedDuring e (Raised e))
               end, W (c ++ done))).
  { intros ->. by apply (text_close_buffer buf c1 r rest). }
  assert (Hclosed : text_close P (F [] []) (W (c ++ done)) = (None, W (c ++ done))).
  { by apply (text_close_buffer [] (c ++ done) None []). }
  unfold text_write, text_writeflush. simpl.
  assert (Hfirst : (if (chunk_size P <? N.of_nat (length data))%N
                    then (None, F [] [], W c) else (None, F [] [], W c))
                   = (None : option exn, F [] [], W c)) by by destruct (_ <? _)%N.
  rewrite Hfirst. simpl.
  destruct data as [|b data].
  { rewrite write_until_nil in Hall. apply W_eq_inv in Hall as (<- & <- & Hc).
    rewrite <- Hc in Hclosed |- *.
    exists None, (F [] []), c, None. split; [by destruct (_ <=? _)%N|]. done. }
  set (data' := b :: data) in *.
  destruct (chunk_size P <=? _)%N eqn:Hchunk.
  - apply N.leb_le in Hchunk. unfold set_pending; simpl. rewrite Ha.
    destruct ra as [e|].
    + destruct Hra as (-> & -> & -> & Hbuf).
      exists (Some e), (F [] []), (c ++ done), None. split; [done|].
      split; [done|]. left. done.
    + exists None, (F [] buf), c1. eexists. split; [done|].
      split; [by apply Hclose|]. destruct r; [|done]. right. right. done.
  - apply N.leb_gt in Hchunk.
    exists None, (F data' []), c. 
    unfold text_close, text_flush, text_writeflush. simpl.
    unfold set_pending; simpl. rewrite Ha.
    destruct ra as [e|].
    + destruct Hra as (-> & -> & -> & Hbuf).
      unfold buffer_flush; simpl.
      exists (Some (Raised e)). split; [done|]. split; [done|].
      right. left. done.
    + specialize (Hclose eq_refl).
      unfold text_close, text_flush, text_writeflush in Hclose. simpl in Hclose.
      eexists. split; [done|]. split; [exact Hclose|].
      destruct r; [|done]. right. right. done.
Qed.

Lemma text_write_close_cases data c :
  ∃ rw fo1 c1 rc done,
    text_write P data (F [] []) (W c) = (rw, fo1, W c1) ∧
    text_close P fo1 (W c1) = (rc, W (c ++ done)) ∧
    match os_write_error P path data (W c) with
    | None => rw = None ∧ rc = None ∧ done = data
    | Some (n, e) =>
      done = take n data ∧ (n < length data)%nat ∧
      ((rw = Some e ∧ rc = None ∧
        (chunk_size P ≤ N.of_nat (length data))%N ∧
        (buffer_size P < N.of_nat (length data))%N) ∨
       (rw = None ∧ rc = Some (Raised e) ∧
        (N.of_nat (length data) < chunk_size P)%N ∧
        (buffer_size P < N.of_nat (length data))%N) ∨
       (rw = None ∧ rc = Some (RaisedDuring e (Raised e))))
    end.
Proof.
  destruct (write_until_at 0 (length data) data c)
    as (r & done & rest & Hall & Hdata & Hsome & Hnone).
  assert (Hnil : r = None → rest = []).
  { intros Hr. specialize (Hnone Hr (le_n _)). destruct rest; [done|]. simpl in Hnone. lia. }
  destruct (text_write_close data c r done rest Hall Hsome Hnil)
    as (rw & fo1 & c1 & rc & Hw & Hc & Hcases).
  exists rw, fo1, c1, rc, done. split; [done|]. split; [done|].
  unfold os_write_error. rewrite Hall. destruct r as [e|].
  - destruct (Hsome e eq_refl) as [Hne _].
    assert (length data - length rest = length done)%nat as ->.
    { rewrite Hdata, length_app. lia. }
    rewrite Hdata at 1 2. rewrite take_app_length, length_app.
    split; [done|]. split; [|done]. destruct rest; [done|]. simpl. lia.
  - rewrite (Hnil eq_refl), app_nil_r in Hdata. by destruct Hcases as [-> ->].
Qed.

End At.
End Writes.

(** ** The runs of the script *)

Section Runs.
Context {X : Type} (L : Library X) (P : Platform X).

Lemma fresh_fd_free (s : State X) : open_files s !! fresh (dom (open_files s)) = None.
Proof. apply not_elem_of_dom, is_fresh. Qed.

Lemma open_error_w path (y : Sys X) :
  open_error P path mode_w y = os_open_error P path mode_w y.
Proof. unfold open_error. by destruct (fs y !! path). Qed.

(** What the [with] statement does when the file can be opened: the file
    is opened, written and closed, and only its content has changed.  When
    the system fails, the file holds the octets it took; the write raises
    if the text layer handed the octets on at once and the binary layer
    was writing them through, and if not, the close raises, with the
    failure of its first flush as the context of the failure of its second
    when the octets were in the buffer. *)
Lemma write_output_exact (s : State X) md :
  os_open_error P output_path mode_w (sys s) = None →
  ∃ rw rc content,
    write_output P md s
    = outcome_of (with_error rw rc)
        (advance (MkSys (<[output_path:=content]> (fs (sys s))) (ext (sys s)))
           [EvOpen output_path mode_w utf_8 (inr (fresh (dom (open_files s))));
            EvWrite (fresh (dom (open_files s))) md rw;
            EvClose (fresh (dom (open_files s))) rc] s)
    ∧ (is_Some rw → rc = None)
    ∧ match encode utf_8 (translate_newlines (os_name P) md) with
      | None => rw = Some (Exn "UnicodeEncodeError") ∧ rc = None ∧ content = []
      | Some data =>
        match os_write_error P output_path data
                (MkSys (<[output_path:=[]]> (fs (sys s))) (ext (sys s))) with
        | None => rw = None ∧ rc = None ∧ content = data
        | Some (n, e) =>
          content = take n data ∧ (n < length data)%nat ∧
          ((rw = Some e ∧ rc = None ∧
            (chunk_size P ≤ N.of_nat (length data))%N ∧
            (buffer_size P < N.of_nat (length data))%N) ∨
           (rw = None ∧ rc = Some (Raised e) ∧
            (N.of_nat (length data) < chunk_size P)%N ∧
            (buffer_size P < N.of_nat (length data))%N) ∨
           (rw = None ∧ rc = Some (RaisedDuring e (Raised e))))
        end
      end.
Proof.
  intros Hopen. set (fd := fresh (dom (open_files s))).
  assert (Hfd : open_files s !! fd = None) by apply fresh_fd_free.
  unfold write_output, with_, py_open, advance.
  rewrite open_error_w, Hopen. fold fd.
  unfold log, set_open_files, set_fs, set_sys, opened_content; simpl.
  unfold write; simpl. rewrite lookup_insert_eq; simpl.
  destruct (encode utf_8 _) as [data|] eqn:Henc.
  2:{ unfold log, close; simpl. rewrite lookup_insert_eq.
      rewrite (text_close_buffer P _ _ _ utf_8 [] [] None [] []) by done.
      exists (Some (Exn "UnicodeEncodeError")), None, [].
      split; [|by split; [intros _|]].
      unfold set_open_files, set_sys, log; simpl.
      by rewrite delete_insert_id, <- !app_assoc. }
  destruct (text_write_close_cases P (fs (sys s)) (ext (sys s)) output_path utf_8 data [])
    as (rw & fo1 & c1 & rc & content & -> & Hclose & Hcases).
  exists rw, rc, content.
  assert (Hrun :
    close P fd
      (MkState (MkSys (<[output_path:=c1]> (fs (sys s))) (ext (sys s)))
         (<[fd:=fo1]> (open_files s)) (argv s) (environ s)
         ((trace s ++ [EvOpen output_path mode_w utf_8 (inr fd)]) ++ [EvWrite fd md rw]))
    = outcome_of rc
        (MkState (MkSys (<[output_path:=content]> (fs (sys s))) (ext (sys s)))
           (open_files s) (argv s) (environ s)
           (trace s ++ [EvOpen output_path mode_w utf_8 (inr fd);
                        EvWrite fd md rw; EvClose fd rc]))).
  { unfold close; simpl. rewrite lookup_insert_eq, Hclose.
    unfold set_open_files, set_sys, log; simpl.
    rewrite delete_insert_id by done.
    destruct rc; simpl; by rewrite <- !app_assoc. }
  unfold set_open_files, set_sys, log; simpl. rewrite insert_insert_eq.
  split; [|split].
  - destruct rw as [e|]; rewrite Hrun; by destruct rc.
  - intros [e ->]. destruct (os_write_error P _ _ _) as [[n e']|].
    + by destruct Hcases as (_ & _ & [(_ & -> & _)|[(? & _)|(? & _)]]).
    + by destruct Hcases as (? & _).
  - done.
Qed.

(** The [with] statement: either the open fails and nothing else happens,
    or the file is opened, written and closed, and only its content has
    changed. *)
Lemma write_output_cases (s : State X) md :
  let fd := fresh (dom (open_files s)) in
  (∃ e, open_error P output_path mode_w (sys s) = Some e ∧
        write_output P md s
        = Raises (Raised e)
            (advance (sys s) [EvOpen output_path mode_w utf_8 (inl e)] s))
  ∨ (open_error P output_path mode_w (sys s) = None ∧
     ∃ rw rc content,
       write_output P md s
       = outcome_of (with_error rw rc)
           (advance (MkSys (<[output_path:=content]> (fs (sys s))) (ext (sys s)))
              [EvOpen output_path mode_w utf_8 (inr fd);
               EvWrite fd md rw; EvClose fd rc] s)
       ∧ (rw = None → rc = None →
          encode utf_8 (translate_newlines (os_name P) md) = Some content)
       ∧ (is_Some rw → rc = None)
       ∧ (∀ top, rc = Some top →
          ∃ e, top = Raised e ∨ top = RaisedDuring e (Raised e))).
Proof.
  intros fd.
  destruct (open_error P output_path mode_w (sys s)) as [e|] eqn:Hopen.
  { left. exists e. split; [done|]. unfold write_output, with_, py_open.
    by rewrite Hopen. }
  right. split; [done|]. rewrite open_error_w in Hopen.
  destruct (write_output_exact s md Hopen) as (rw & rc & content & Hrun & Hrc & Hcases).
  exists rw, rc, content. split; [done|]. split; [|split; [done|]].
  - intros -> ->. destruct (encode utf_8 _) as [data|].
    + destruct (os_write_error P _ _ _) as [[n e]|].
      * by destruct Hcases as (_ & _ & [(? & _)|[(_ & ? & _)|(_ & ?)]]).
      * by destruct Hcases as (_ & _ & ->).
    + by destruct Hcases as (? & _).
  - intros top ->. destruct (encode utf_8 _) as [data|].
    + destruct (os_write_error P _ _ _) as [[n e]|].
      * destruct Hcases as (_ & _ & [(_ & ? & _)|[(_ & ? & _)|(_ & ?)]]);
          simplify_eq; eauto.
      * by destruct Hcases as (_ & ? & _).
    + by destruct Hcases as (_ & ? & _).
Qed.

Lemma advance_advance (y y' : Sys X) evs evs' (s : State X) :
  advance y' evs' (advance y evs s) = advance y' (evs ++ evs') s.
Proof. unfold advance; simpl. by rewrite <- app_assoc. Qed.

Lemma log_set_sys ev (y : Sys X) (s : State X) :
  log ev (set_sys y s) = advance y [ev] s.
Proof. done. Qed.

(** The library calls of the script: the run ends where the first of them
    raises, and goes on to the [with] statement when none does. *)
Lemma script_lib_run (s : State X) :
  ∃ evs r y,
    lib_run L (sys s) evs r y ∧
    script L P s =
      match r with
      | inl e => Raises (Raised e) (advance y evs s)
      | inr md => write_output P md (advance y evs s)
      end.
Proof.
  unfold script, mbind, M_bind.
  unfold import_DocumentConverter, call_lib at 1.
  destruct (lib_import L (sys s)) as [[e|u] y1] eqn:H1; rewrite log_set_sys.
  { eexists _, (inl e), y1. split; [by apply run_import_raises|done]. }
  unfold DocumentConverter, call_lib at 1. simpl sys.
  destruct (lib_new L y1) as [[e|c] y2] eqn:H2; rewrite log_set_sys, advance_advance.
  { eexists _, (inl e), y2. split; [by eapply run_new_raises|done]. }
  unfold convert, call_lib at 1. simpl sys.
  destruct (lib_convert L c _ y2) as [[e|r] y3] eqn:H3;
    rewrite log_set_sys, advance_advance.
  { eexists _, (inl e), y3. split; [by eapply run_convert_raises|done]. }
  unfold document, call_lib at 1. simpl sys.
  destruct (lib_document L r y3) as [[e|d] y4] eqn:H4;
    rewrite log_set_sys, advance_advance.
  { eexists _, (inl e), y4. split; [by eapply run_document_raises|done]. }
  unfold export_to_markdown, call_lib at 1. simpl sys.
  destruct (lib_export_to_markdown L d y4) as [[e|md] y5] eqn:H5;
    rewrite log_set_sys, advance_advance.
  { eexists _, (inl e), y5. split; [by eapply run_export_raises|done]. }
  eexists _, (inr md), y5. split; [|done].
  apply run_exports. by exists u, y1, c, y2, r, y3, d, y4.
Qed.

(** Every run of the script. *)
Lemma script_cases (s : State X) :
  ∃ evs r y, lib_run L (sys s) evs r y ∧
    match r with
    | inl e => script L P s = Raises (Raised e) (advance y evs s)
    | inr md =>
      (∃ e, open_error P output_path mode_w y = Some e ∧
         script L P s
         = Raises (Raised e)
             (advance y (evs ++ [EvOpen output_path mode_w utf_8 (inl e)]) s))
      ∨ (∃ rw rc content,
         script L P s
         = outcome_of (with_error rw rc)
             (advance (MkSys (<[output_path:=content]> (fs y)) (ext y))
                (evs ++ [EvOpen output_path mode_w utf_8
                           (inr (fresh (dom (open_files s))));
                         EvWrite (fresh (dom (open_files s))) md rw;
                         EvClose (fresh (dom (open_files s))) rc]) s)
         ∧ (rw = None → rc = None →
            encode utf_8 (translate_newlines (os_name P) md) = Some content)
         ∧ (is_Some rw → rc = None)
         ∧ (∀ top, rc = Some top →
            ∃ e, top = Raised e ∨ top = RaisedDuring e (Raised e)))
    end.
Proof.
  destruct (script_lib_run s) as (evs & r & y & Hrun & Hs).
  exists evs, r, y. split; [done|]. destruct r as [e|md]; [done|].
  rewrite Hs.
  destruct (write_output_cases (advance y evs s) md)
    as [(e & He & ->)|(_ & rw & rc & content & -> & Henc)].
  - left. exists e. split; [done|]. by rewrite advance_advance.
  - right. exists rw, rc, content. split; [|done].
    rewrite advance_advance. done.
Qed.

End Runs.

(** ** What follows from the case analysis *)

Section Consequences.
Context {X : Type} (L : Library X) (P : Platform X).

Lemma exports_functional (y0 : Sys X) md y md' y' :
  exports L y0 md y → exports L y0 md' y' → md = md' ∧ y = y'.
Proof.
  intros (u & y1 & c & y2 & r & y3 & d & y4 & H1 & H2 & H3 & H4 & H5)
         (u' & y1' & c' & y2' & r' & y3' & d' & y4' & H1' & H2' & H3' & H4' & H5').
  rewrite H1 in H1'. simplify_eq. rewrite H2 in H2'. simplify_eq.
  rewrite H3 in H3'. simplify_eq. rewrite H4 in H4'. simplify_eq.
  rewrite H5 in H5'. by simplify_eq.
Qed.

Lemma lib_run_exports_inv (y0 : Sys X) evs md y :
  lib_run L y0 evs (inr md) y →
  exports L y0 md y ∧
  evs = [EvImport None; EvNew None; EvConvert source_url None; EvDocument None;
         EvExport (inr md)].
Proof. by inversion 1. Qed.

(** The log of a run and the exception that ends it. *)
Lemma script_log_complete (s : State X) :
  ∃ evs, trace (final (script L P s)) = trace s ++ evs ∧
         script_log L (sys s) evs (error_of (script L P s)).
Proof.
  destruct (script_cases L P s) as (evs & r & y & Hrun & Hs).
  destruct r as [e|md].
  - exists evs. rewrite Hs. split; [done|]. by eapply log_lib_raises.
  - destruct Hs as [(e & _ & ->)|(rw & rc & content & -> & _ & Hrc & _)].
    + eexists. split; [done|]. simpl. eapply log_lib_exports; [done|]. constructor.
    + eexists. split; [by destruct (with_error rw rc)|].
      replace (error_of _) with (with_error rw rc) by by destruct (with_error rw rc).
      eapply log_lib_exports; [done|]. by constructor.
Qed.

(** The script hands back the descriptors it opened and leaves the command
    line and the environment as they were. *)
Lemma script_keeps_process (s : State X) :
  open_files (final (script L P s)) = open_files s ∧
  argv (final (script L P s)) = argv s ∧
  environ (final (script L P s)) = environ s.
Proof.
  destruct (script_cases L P s) as (evs & r & y & Hrun & Hs).
  destruct r as [e|md]; [by rewrite Hs|].
  destruct Hs as [(e & _ & ->)|(rw & rc & content & -> & _)]; [done|].
  by destruct (with_error rw rc).
Qed.

(** A run that returns: every call returned, and the file holds the
    encoded Markdown. *)
Lemma script_returns_inv (s s' : State X) :
  script L P s = Returns tt s' →
  ∃ md y data,
    exports L (sys s) md y ∧
    encode utf_8 (translate_newlines (os_name P) md) = Some data ∧
    s' = advance (MkSys (<[output_path:=data]> (fs y)) (ext y))
           [EvImport None; EvNew None; EvConvert source_url None; EvDocument None;
            EvExport (inr md);
            EvOpen output_path mode_w utf_8 (inr (fresh (dom (open_files s))));
            EvWrite (fresh (dom (open_files s))) md None;
            EvClose (fresh (dom (open_files s))) None] s.
Proof.
  intros Hret.
  destruct (script_cases L P s) as (evs & r & y & Hrun & Hs).
  destruct r as [e|md]; [congruence|].
  apply lib_run_exports_inv in Hrun as [Hexp ->].
  destruct Hs as [(e & _ & Hs)|(rw & rc & content & Hs & Henc & _)]; [congruence|].
  rewrite Hs in Hret.
  destruct rw as [e|]; [by destruct rc|]. destruct rc as [e|]; [done|].
  simpl in Hret. simplify_eq. exists md, y, content. by rewrite Henc.
Qed.

(** The library calls keep what every library call keeps. *)
Lemma lib_run_preserves (Q : Sys X → Prop) (y0 : Sys X) evs r y :
  lib_preserves L Q → Q y0 → lib_run L y0 evs r y → Q y.
Proof.
  intros (Qi & Qn & Qc & Qd & Qe) Hy0 Hrun.
  assert (Hi : ∀ r1 y1, lib_import L y0 = (r1, y1) → Q y1).
  { intros r1 y1 H. specialize (Qi y0 Hy0). by rewrite H in Qi. }
  assert (Hn : ∀ y1 r2 y2, Q y1 → lib_new L y1 = (r2, y2) → Q y2).
  { intros y1 r2 y2 Hy H. specialize (Qn y1 Hy). by rewrite H in Qn. }
  assert (Hc : ∀ c src y2 r3 y3, Q y2 → lib_convert L c src y2 = (r3, y3) → Q y3).
  { intros c src y2 r3 y3 Hy H. specialize (Qc c src y2 Hy). by rewrite H in Qc. }
  assert (Hd : ∀ res y3 r4 y4, Q y3 → lib_document L res y3 = (r4, y4) → Q y4).
  { intros res y3 r4 y4 Hy H. specialize (Qd res y3 Hy). by rewrite H in Qd. }
  assert (He : ∀ d y4 r5 y5, Q y4 → lib_export_to_markdown L d y4 = (r5, y5) → Q y5).
  { intros d y4 r5 y5 Hy H. specialize (Qe d y4 Hy). by rewrite H in Qe. }
  assert (Hexp : ∀ md, exports L y0 md y → Q y).
  { intros md (u & y1 & c & y2 & res & y3 & d & y4 & H1 & H2 & H3 & H4 & H5).
    eapply He, H5. eapply Hd, H4. eapply Hc, H3. eapply Hn, H2. eapply Hi, H1. }
  inversion Hrun; subst;
    repeat first
      [ eapply Hexp; eassumption
      | eapply Hi; eassumption
      | eapply He; [|eassumption]
      | eapply Hd; [|eassumption]
      | eapply Hc; [|eassumption]
      | eapply Hn; [|eassumption] ].
Qed.

Lemma lib_run_functional (y0 : Sys X) evs r y evs' r' y' :
  lib_run L y0 evs r y → lib_run L y0 evs' r' y' →
  evs = evs' ∧ r = r' ∧ y = y'.
Proof.
  intros H H'.
  inversion H; subst; inversion H'; subst;
    repeat match goal with
    | Hx : exports _ _ _ _ |- _ =>
      destruct Hx as (? & ? & ? & ? & ? & ? & ? & ? & ? & ? & ? & ? & ?)
    end;
    repeat match goal with
    | H1 : ?a = _, H2 : ?a = _ |- _ => rewrite H1 in H2; simplify_eq
    end; done.
Qed.

Lemma script_after_lib (s : State X) evs r y :
  lib_run L (sys s) evs r y →
  script L P s =
    match r with
    | inl e => Raises (Raised e) (advance y evs s)
    | inr md => write_output P md (advance y evs s)
    end.
Proof.
  intros Hrun. destruct (script_lib_run L P s) as (evs' & r' & y' & Hrun' & ->).
  by destruct (lib_run_functional _ _ _ _ _ _ _ Hrun Hrun') as (-> & -> & ->).
Qed.

(** The run once the library has exported [md] and the file can be opened. *)
Lemma script_after_open (s : State X) md y :
  exports L (sys s) md y →
  os_open_error P output_path mode_w y = None →
  ∃ rw rc content,
    script L P s
    = outcome_of (with_error rw rc)
        (advance (MkSys (<[output_path:=content]> (fs y)) (ext y))
           [EvImport None; EvNew None; EvConvert source_url None; EvDocument None;
            EvExport (inr md);
            EvOpen output_path mode_w utf_8 (inr (fresh (dom (open_files s))));
            EvWrite (fresh (dom (open_files s))) md rw;
            EvClose (fresh (dom (open_files s))) rc] s)
    ∧ (is_Some rw → rc = None)
    ∧ match encode utf_8 (translate_newlines (os_name P) md) with
      | None => rw = Some (Exn "UnicodeEncodeError") ∧ rc = None ∧ content = []
      | Some data =>
        match os_write_error P output_path data
                (MkSys (<[output_path:=[]]> (fs y)) (ext y)) with
        | None => rw = None ∧ rc = None ∧ content = data
        | Some (n, e) =>
          content = take n data ∧ (n < length data)%nat ∧
          ((rw = Some e ∧ rc = None ∧
            (chunk_size P ≤ N.of_nat (length data))%N ∧
            (buffer_size P < N.of_nat (length data))%N) ∨
           (rw = None ∧ rc = Some (Raised e) ∧
            (N.of_nat (length data) < chunk_size P)%N ∧
            (buffer_size P < N.of_nat (length data))%N) ∨
           (rw = None ∧ rc = Some (RaisedDuring e (Raised e))))
        end
      end.
Proof.
  intros Hexp Hopen.
  rewrite (script_after_lib s _ (inr md) y (run_exports L _ _ _ Hexp)).
  destruct (write_output_exact P
              (advance y [EvImport None; EvNew None; EvConvert source_url None;
                          EvDocument None; EvExport (inr md)] s) md Hopen)
    as (rw & rc & content & -> & Hrc & Hcases).
  exists rw, rc, content. split; [|done].
  by rewrite advance_advance.
Qed.

Lemma script_open_raises (s : State X) md y e :
  exports L (sys s) md y →
  os_open_error P output_path mode_w y = Some e →
  script L P s
  = Raises (Raised e)
      (advance y
         [EvImport None; EvNew None; EvConvert source_url None; EvDocument None;
          EvExport (inr md); EvOpen output_path mode_w utf_8 (inl e)] s).
Proof.
  intros Hexp Hopen.
  rewrite (script_after_lib s _ (inr md) y (run_exports L _ _ _ Hexp)).
  unfold write_output, with_, py_open.
  rewrite open_error_w. simpl sys. rewrite Hopen.
  unfold log, advance; simpl. by rewrite <- app_assoc.
Qed.

End Consequences.

(** ** The script does not read its inputs *)

Section Inputs.
Context {X : Type} (L : Library X) (P : Platform X).

Lemma call_lib_ignores_inputs {A} (op : Sys X → result A * Sys X) ev :
  ignores_inputs (call_lib op ev).
Proof.
  intros args env s. unfold call_lib; simpl.
  by destruct (op (sys s)) as [[e|a] y].
Qed.

Lemma bind_ignores_inputs {A B} (m : M X A) (k : A → M X B) :
  ignores_inputs m → (∀ a, ignores_inputs (k a)) → ignores_inputs (m ≫= k).
Proof.
  intros Hm Hk args env s. unfold mbind, M_bind. rewrite Hm.
  destruct (m s) as [a s1|e s1]; simpl; [apply Hk|done].
Qed.

Lemma py_open_ignores_inputs path mode enc : ignores_inputs (py_open P path mode enc).
Proof.
  intros args env s. unfold py_open; simpl.
  by destruct (open_error P path mode (sys s)).
Qed.

Lemma write_ignores_inputs fd text : ignores_inputs (write P fd text).
Proof.
  intros args env s. unfold write; simpl.
  destruct (open_files s !! fd) as [fo|]; [|done].
  destruct (encode _ _) as [data|]; [|done].
  by destruct (text_write P data fo (sys s)) as [[[e|] fo1] y1].
Qed.

Lemma close_ignores_inputs fd : ignores_inputs (close P fd).
Proof.
  intros args env s. unfold close; simpl.
  destruct (open_files s !! fd) as [fo|]; [|done].
  by destruct (text_close P fo (sys s)) as [[top|] y1].
Qed.

Lemma with_ignores_inputs {A} (expr : M X nat) (body : nat → M X A) :
  ignores_inputs expr → (∀ f, ignores_inputs (body f)) →
  ignores_inputs (with_ P expr body).
Proof.
  intros Hexpr Hbody args env s. unfold with_. rewrite Hexpr.
  destruct (expr s) as [f s1|e s1]; simpl; [|done].
  rewrite Hbody. destruct (body f s1) as [a s2|e s2]; simpl.
  - apply close_ignores_inputs.
  - rewrite close_ignores_inputs. by destruct (close P f s2).
Qed.

Lemma script_ignores_inputs : ignores_inputs (script L P).
Proof.
  unfold script.
  repeat (apply bind_ignores_inputs; [apply call_lib_ignores_inputs|intros ?]).
  apply with_ignores_inputs; [apply py_open_ignores_inputs|].
  intros f. apply write_ignores_inputs.
Qed.

End Inputs.

(** ** The shape of the logs *)

Lemma at_every_split_spec R evs : ∀ before,
  at_every_split R before evs →
  ∀ pre ev post, evs = pre ++ ev :: post → R (before ++ pre) ev post.
Proof.
  induction evs as [|ev0 evs IH]; intros before Hevs pre ev post Heq.
  - by destruct pre.
  - destruct Hevs as [H0 Hrest]. destruct pre as [|ev1 pre]; simplify_eq/=.
    + by rewrite app_nil_r.
    + specialize (IH _ Hrest pre ev post eq_refl).
      by rewrite <- app_assoc in IH.
Qed.


Section Logs.
Context {X : Type} (L : Library X).

Ltac log_cases H :=
  inversion H as [evs0 e0 y0' Hrun|evs0 md0 y0' evs1 oe0 Hrun Hfile]; subst;
  [ inversion Hrun; subst
  | apply lib_run_exports_inv in Hrun as [_ ->];
    inversion Hfile as [e1|fd1 rw1 rc1 Hrc]; subst;
    [|destruct rw1 as [?|]; [rewrite Hrc in * by done|destruct rc1 as [?|]]] ];
  simpl in *.




Lemma script_log_order (y0 : Sys X) evs oe :
  script_log L y0 evs oe → ∃ n, map site evs = take n program_order.
Proof.
  intros Hlog. log_cases Hlog;
    first [ by exists 1%nat | by exists 2%nat | by exists 3%nat | by exists 4%nat
          | by exists 5%nat | by exists 6%nat | by exists 8%nat ].
Qed.

Lemma script_log_in_sequence (y0 : Sys X) evs oe :
  script_log L y0 evs oe → at_every_split in_sequence [] evs.
Proof.
  intros Hlog. log_cases Hlog; unfold in_sequence, stage; simpl;
    repeat match goal with
    | |- _ ∧ _ => split
    | |- True => exact I
    | |- _ → _ => intros ?
    | H : is_Some _ |- _ => destruct H as [? ?]
    end; simplify_eq/=; eauto 12.
Qed.


Lemma script_log_source (y0 : Sys X) evs oe :
  script_log L y0 evs oe →
  ∀ source r, In (EvConvert source r) evs → source = source_url.
Proof.
  intros Hlog source r Hin. log_cases Hlog;
    repeat (destruct Hin as [Heq|Hin]; simplify_eq); done.
Qed.

Lemma script_log_open (y0 : Sys X) evs oe :
  script_log L y0 evs oe →
  ∀ path mode enc r, In (EvOpen path mode enc r) evs →
    path = output_path ∧ mode = mode_w ∧ enc = utf_8.
Proof.
  intros Hlog path mode enc r Hin. log_cases Hlog;
    repeat (destruct Hin as [Heq|Hin]; simplify_eq); done.
Qed.

End Logs.

(** ** Sample runs *)

Example encode_euro_sign : encode utf_8 [0x20AC] = Some [0xE2; 0x82; 0xAC].
Proof. reflexivity. Qed.

Example encode_emoji : encode utf_8 [0x1F600] = Some [0xF0; 0x9F; 0x98; 0x80].
Proof. reflexivity. Qed.

Example encode_surrogate : encode utf_8 surrogate_markdown = None.
Proof. reflexivity. Qed.

Example translate_windows :
  translate_newlines nt sample_markdown = [35; 32; 84; 13; 10].
Proof. reflexivity. Qed.

(** The whole run on POSIX, from an empty directory. *)
Example sample_run :
  script (sample_library None sample_markdown) (sample_platform posix) boot
  = Returns tt
      (MkState (MkSys (<["output.md" := [35; 32; 84; 10]]> ∅) 1%nat) ∅ [] ∅
         [EvImport None; EvNew None;
          EvConvert "https://arxiv.org/pdf/2206.01062" None; EvDocument None;
          EvExport (inr [35; 32; 84; 10]);
          EvOpen "output.md" mode_w utf_8 (inr 0%nat);
          EvWrite 0 [35; 32; 84; 10] None; EvClose 0 None]).
Proof. vm_compute. reflexivity. Qed.

(** The exported text cannot be encoded: the file has been created, the
    write raises, the file is closed. *)
Example sample_run_surrogate :
  script (sample_library None surrogate_markdown) (sample_platform posix) boot
  = Raises (Raised (Exn "UnicodeEncodeError"))
      (MkState (MkSys (<["output.md" := []]> ∅) 1%nat) ∅ [] ∅
         [EvImport None; EvNew None;
          EvConvert "https://arxiv.org/pdf/2206.01062" None; EvDocument None;
          EvExport (inr surrogate_markdown);
          EvOpen "output.md" mode_w utf_8 (inr 0%nat);
          EvWrite 0 surrogate_markdown (Some (Exn "UnicodeEncodeError"));
          EvClose 0 None]).
Proof. vm_compute. reflexivity. Qed.

(** The encoded text is as long as a chunk and the disk fails: the text
    layer hands it on at once, the binary layer writes it through, the
    write raises and the octets are dropped, so that the close returns. *)
Example sample_run_write_fails :
  script (sample_library None sample_markdown) failing_disk_platform boot
  = Raises (Raised (Exn "OSError"))
      (MkState (MkSys (<["output.md" := []]> ∅) 1%nat) ∅ [] ∅
         [EvImport None; EvNew None;
          EvConvert "https://arxiv.org/pdf/2206.01062" None; EvDocument None;
          EvExport (inr sample_markdown);
          EvOpen "output.md" mode_w utf_8 (inr 0%nat);
          EvWrite 0 sample_markdown (Some (Exn "OSError"));
          EvClose 0 None]).
Proof. vm_compute. reflexivity. Qed.

(** The encoded text is shorter than a chunk and the disk takes three of
    its four octets: the write returns, the first flush of the close
    raises, the flush of the binary layer raises again, and the second
    exception goes up with the first as its context. *)
Example sample_run_close_fails :
  script (sample_library None sample_markdown) small_disk_platform boot
  = Raises (RaisedDuring (Exn "OSError") (Raised (Exn "OSError")))
      (MkState (MkSys (<["output.md" := [35; 32; 84]]> ∅) 1%nat) ∅ [] ∅
         [EvImport None; EvNew None;
          EvConvert "https://arxiv.org/pdf/2206.01062" None; EvDocument None;
          EvExport (inr sample_markdown);
          EvOpen "output.md" mode_w utf_8 (inr 0%nat);
          EvWrite 0 sample_markdown None;
          EvClose 0 (Some (RaisedDuring (Exn "OSError") (Raised (Exn "OSError"))))]).
Proof. vm_compute. reflexivity. Qed.

(** * The claims *)

(** C1 (as amended).  For every run that returns normally, which takes that
    the conversion, the export and also the opening, the writing and the
    closing of the file succeed, the string handed to [f.write] is the
    string that [export_to_markdown] returned, unchanged, and [output.md]
    holds its UTF-8 encoding with every newline written as the line
    separator of the platform: reading the file back as UTF-8 gives that
    text, which on POSIX is the exported string itself. *)
Theorem C1_output_holds_exported_markdown {X} (L : Library X) (P : Platform X)
    (s s' : State X) :
  script L P s = Returns tt s' →
  ∃ md y data fd,
    exports L (sys s) md y ∧
    trace s' = trace s ++
      [EvImport None; EvNew None; EvConvert source_url None; EvDocument None;
       EvExport (inr md); EvOpen output_path mode_w utf_8 (inr fd);
       EvWrite fd md None; EvClose fd None] ∧
    encode utf_8 (translate_newlines (os_name P) md) = Some data ∧
    fs (sys s') !! output_path = Some data ∧
    utf8_decode data = Some (translate_newlines (os_name P) md) ∧
    (os_name P = posix → utf8_decode data = Some md).
Proof.
  intros Hret. apply script_returns_inv in Hret as (md & y & data & Hexp & Henc & ->).
  exists md, y, data, (fresh (dom (open_files s))).
  repeat split; try done.
  - simpl. apply lookup_insert_eq.
  - by apply utf8_decode_encode.
  - intros Hos. rewrite Hos in Henc. rewrite translate_newlines_posix in Henc.
    by apply utf8_decode_encode.
Qed.

(** The library exports ["# T\n"] on POSIX, from an empty directory. *)
Lemma C1_witness :
  script (sample_library None sample_markdown) (sample_platform posix) boot
  = Returns tt
      (final (script (sample_library None sample_markdown) (sample_platform posix) boot))
  ∧ ∃ md y data fd,
    exports (sample_library None sample_markdown) (sys boot) md y ∧
    trace (final (script (sample_library None sample_markdown)
                    (sample_platform posix) boot)) = trace boot ++
      [EvImport None; EvNew None; EvConvert source_url None; EvDocument None;
       EvExport (inr md); EvOpen output_path mode_w utf_8 (inr fd);
       EvWrite fd md None; EvClose fd None] ∧
    encode utf_8 (translate_newlines posix md) = Some data ∧
    fs (sys (final (script (sample_library None sample_markdown)
                      (sample_platform posix) boot))) !! output_path = Some data ∧
    utf8_decode data = Some (translate_newlines posix md) ∧
    (posix = posix → utf8_decode data = Some md).
Proof.
  split; [vm_compute; reflexivity|].
  apply (C1_output_holds_exported_markdown
           (sample_library None sample_markdown) (sample_platform posix) boot).
  vm_compute; reflexivity.
Defined.

(** C1 as stated fails.  First, the conversion and the export succeed and
    the directory is read-only: the run ends with [PermissionError] and there
    is no [output.md].  Second, on Windows the exported ["# T\n"] reaches
    the file as ["# T\r\n"], which is not the UTF-8 encoding of the string
    that was exported. *)
Lemma C1_counterexample :
  (exports (sample_library None sample_markdown) (sys boot)
     sample_markdown (MkSys ∅ 1%nat) ∧
   error_of (script (sample_library None sample_markdown) readonly_platform boot)
   = Some (Raised (Exn "PermissionError")) ∧
   fs (sys (final (script (sample_library None sample_markdown)
                     readonly_platform boot))) !! output_path = None)
  ∧
  (exports (sample_library None sample_markdown) (sys boot)
     sample_markdown (MkSys ∅ 1%nat) ∧
   error_of (script (sample_library None sample_markdown) (sample_platform nt) boot)
   = None ∧
   fs (sys (final (script (sample_library None sample_markdown)
                     (sample_platform nt) boot))) !! output_path
   = Some [35; 32; 84; 13; 10] ∧
   encode utf_8 sample_markdown = Some [35; 32; 84; 10]).
Proof.
  assert (Hexp : exports (sample_library None sample_markdown) (sys boot)
                   sample_markdown (MkSys ∅ 1%nat)).
  { by exists tt, (MkSys ∅ 1%nat), tt, (MkSys ∅ 1%nat), tt, (MkSys ∅ 1%nat),
      tt, (MkSys ∅ 1%nat). }
  repeat split; try exact Hexp; vm_compute; reflexivity.
Qed.

(** C2.  When the [convert] call raises, the run ends there with that
    exception: the world is the one the failing call left, no file was
    opened or written (the log ends with the failed call) and no descriptor
    is held. *)
Theorem C2_convert_failure_skips_write {X} (L : Library X) (P : Platform X)
    (s : State X) u y1 converter y2 e y3 :
  lib_import L (sys s) = (inr u, y1) →
  lib_new L y1 = (inr converter, y2) →
  lib_convert L converter source_url y2 = (inl e, y3) →
  script L P s
  = Raises (Raised e)
      (MkState y3 (open_files s) (argv s) (environ s)
         (trace s ++ [EvImport None; EvNew None; EvConvert source_url (Some e)])).
Proof.
  intros H1 H2 H3.
  unfold script, mbind, M_bind, import_DocumentConverter, DocumentConverter,
    convert, call_lib.
  rewrite H1; simpl. rewrite H2; simpl. unfold source_url in H3. rewrite H3; simpl.
  unfold log, set_sys; simpl. by rewrite <- !app_assoc.
Qed.

(** The URL is unreachable, in a directory that holds an [output.md]. *)
Lemma C2_witness :
  script (sample_library (Some (Exn "ConnectionError")) sample_markdown)
    (sample_platform posix) boot_with_files
  = Raises (Raised (Exn "ConnectionError"))
      (MkState (MkSys (fs (sys boot_with_files)) 1%nat)
         (open_files boot_with_files) (argv boot_with_files)
         (environ boot_with_files)
         (trace boot_with_files ++
            [EvImport None; EvNew None;
             EvConvert source_url (Some (Exn "ConnectionError"))])).
Proof.
  apply (C2_convert_failure_skips_write
           (sample_library (Some (Exn "ConnectionError")) sample_markdown)
           (sample_platform posix) boot_with_files
           tt (MkSys (fs (sys boot_with_files)) 1%nat)
           tt (MkSys (fs (sys boot_with_files)) 1%nat));
    reflexivity.
Defined.


(** C4.  On every run that returns normally, the one file opened is
    [output.md], in mode ["w"] with the UTF-8 encoding, and what the file
    held before is gone: the file system is the one the library calls left
    with the content of [output.md] replaced by the encoded Markdown. *)
Theorem C4_output_file_overwritten {X} (L : Library X) (P : Platform X)
    (s s' : State X) :
  script L P s = Returns tt s' →
  ∃ md y data evs,
    exports L (sys s) md y ∧
    encode utf_8 (translate_newlines (os_name P) md) = Some data ∧
    sys s' = MkSys (<[output_path := data]> (fs y)) (ext y) ∧
    fs (sys s') !! output_path = Some data ∧
    trace s' = trace s ++ evs ∧
    (∀ path mode enc r, In (EvOpen path mode enc r) evs →
       path = "output.md" ∧ mode = mode_w ∧ enc = utf_8).
Proof.
  intros Hret.
  destruct (script_log_complete L P s) as (evs & Htrace & Hlog).
  rewrite Hret in Htrace. simpl in Htrace.
  apply script_returns_inv in Hret as (md & y & data & Hexp & Henc & ->).
  exists md, y, data, evs. split; [done|]. split; [done|]. split; [done|].
  split; [simpl; apply lookup_insert_eq|]. split; [done|].
  intros path mode enc r Hin. by eapply script_log_open.
Qed.

(** The directory holds an [output.md] with other content. *)
Lemma C4_witness :
  ∃ md y data evs,
    exports (sample_library None sample_markdown) (sys boot_with_files) md y ∧
    encode utf_8 (translate_newlines posix md) = Some data ∧
    sys (final (script (sample_library None sample_markdown)
                  (sample_platform posix) boot_with_files))
    = MkSys (<[output_path := data]> (fs y)) (ext y) ∧
    fs (sys (final (script (sample_library None sample_markdown)
                      (sample_platform posix) boot_with_files))) !! output_path
    = Some data ∧
    trace (final (script (sample_library None sample_markdown)
                    (sample_platform posix) boot_with_files))
    = trace boot_with_files ++ evs ∧
    (∀ path mode enc r, In (EvOpen path mode enc r) evs →
       path = "output.md" ∧ mode = mode_w ∧ enc = utf_8).
Proof.
  apply (C4_output_file_overwritten
           (sample_library None sample_markdown) (sample_platform posix)
           boot_with_files).
  vm_compute; reflexivity.
Defined.

(** C5.  The source handed to [convert] is the literal URL on every run,
    and the run does not depend on the command line or the environment:
    started with others, the script makes the same calls, ends the same way
    and leaves the same world. *)
Theorem C5_source_is_hard_coded {X} (L : Library X) (P : Platform X) (s : State X) :
  (∃ evs, trace (final (script L P s)) = trace s ++ evs ∧
     ∀ source r, In (EvConvert source r) evs →
       source = "https://arxiv.org/pdf/2206.01062") ∧
  (∀ args env,
     script L P (set_inputs args env s)
     = map_final (set_inputs args env) (script L P s)).
Proof.
  split.
  - destruct (script_log_complete L P s) as (evs & Htrace & Hlog).
    exists evs. split; [done|]. intros source r Hin.
    by eapply script_log_source.
  - intros args env. apply script_ignores_inputs.
Qed.

(** C6 (as amended).  After a run that returns normally, [output.md] exists
    and holds text, the UTF-8 encoding of the exported Markdown; it is empty
    exactly when the exported string is empty, for the script does not look
    at the string. *)
Theorem C6_output_nonempty_iff_markdown_nonempty {X} (L : Library X)
    (P : Platform X) (s s' : State X) :
  script L P s = Returns tt s' →
  ∃ md y data,
    exports L (sys s) md y ∧
    fs (sys s') !! output_path = Some data ∧
    utf8_decode data = Some (translate_newlines (os_name P) md) ∧
    (data = [] ↔ md = []).
Proof.
  intros Hret. apply script_returns_inv in Hret as (md & y & data & Hexp & Henc & ->).
  exists md, y, data. split; [done|]. split; [simpl; apply lookup_insert_eq|].
  split; [by apply utf8_decode_encode|]. split.
  - intros ->. apply encode_nil_inv in Henc.
    by apply translate_newlines_nil_inv in Henc.
  - intros ->. simpl in Henc. by simplify_eq.
Qed.

Lemma C6_witness :
  ∃ md y data,
    exports (sample_library None sample_markdown) (sys boot) md y ∧
    fs (sys (final (script (sample_library None sample_markdown)
                      (sample_platform nt) boot))) !! output_path = Some data ∧
    utf8_decode data = Some (translate_newlines nt md) ∧
    (data = [] ↔ md = []).
Proof.
  apply (C6_output_nonempty_iff_markdown_nonempty
           (sample_library None sample_markdown) (sample_platform nt) boot).
  vm_compute; reflexivity.
Defined.

(** C6 as stated fails.  First, the conversion succeeds on a document
    without text: the export returns the empty string, the run returns
    normally and [output.md] exists and is empty.  Second, the conversion
    succeeds and the directory is read-only: there is no [output.md]. *)
Lemma C6_counterexample :
  (exports (sample_library None []) (sys boot) [] (MkSys ∅ 1%nat) ∧
   error_of (script (sample_library None []) (sample_platform posix) boot) = None ∧
   fs (sys (final (script (sample_library None []) (sample_platform posix) boot)))
     !! output_path = Some [])
  ∧
  (exports (sample_library None sample_markdown) (sys boot)
     sample_markdown (MkSys ∅ 1%nat) ∧
   fs (sys (final (script (sample_library None sample_markdown)
                     readonly_platform boot))) !! output_path = None).
Proof.
  split; (split;
    [ by exists tt, (MkSys ∅ 1%nat), tt, (MkSys ∅ 1%nat), tt, (MkSys ∅ 1%nat),
        tt, (MkSys ∅ 1%nat)
    | repeat split; vm_compute; reflexivity ]).
Qed.

(** C7 (as amended).  When two runs in succession both return normally and
    the library exports the same Markdown in both, [output.md] holds after
    the second run what it held after the first. *)
Theorem C7_rerun_same_content {X} (L : Library X) (P : Platform X)
    (s s1 s2 : State X) md y y' :
  script L P s = Returns tt s1 →
  script L P s1 = Returns tt s2 →
  exports L (sys s) md y →
  exports L (sys s1) md y' →
  fs (sys s2) !! output_path = fs (sys s1) !! output_path.
Proof.
  intros Hret1 Hret2 Hexp1 Hexp2.
  apply script_returns_inv in Hret1 as (md1 & z1 & data1 & Hexp1' & Henc1 & Hs1).
  apply script_returns_inv in Hret2 as (md2 & z2 & data2 & Hexp2' & Henc2 & Hs2).
  destruct (exports_functional L _ _ _ _ _ Hexp1 Hexp1') as [<- _].
  destruct (exports_functional L _ _ _ _ _ Hexp2 Hexp2') as [<- _].
  rewrite Hs2, Hs1. simpl. rewrite !lookup_insert_eq. congruence.
Qed.

Lemma C7_witness :
  fs (sys (final (script (sample_library None sample_markdown) (sample_platform posix)
     (final (script (sample_library None sample_markdown)
               (sample_platform posix) boot))))) !! output_path
  = fs (sys (final (script (sample_library None sample_markdown)
                      (sample_platform posix) boot))) !! output_path.
Proof.
  apply (C7_rerun_same_content
           (sample_library None sample_markdown) (sample_platform posix)
           boot _ _ sample_markdown (MkSys ∅ 1%nat)
           (MkSys (<[output_path := [35; 32; 84; 10]]> ∅) 2%nat)).
  - vm_compute; reflexivity.
  - vm_compute; reflexivity.
  - by exists tt, (MkSys ∅ 1%nat), tt, (MkSys ∅ 1%nat), tt, (MkSys ∅ 1%nat),
      tt, (MkSys ∅ 1%nat).
  - by eexists tt, _, tt, _, tt, _, tt, _.
Defined.

(** C7 as stated fails.  The library exports the same Markdown in both
    runs.  The first run returns and [output.md] holds the Markdown.  In the
    second run the file is opened, hence truncated, and the disk is full
    when the close flushes the text: the run ends with the [OSError] of the
    close, which has the [OSError] of its first flush as its context, and
    [output.md] is left empty. *)
Lemma C7_counterexample :
  exports (sample_library None sample_markdown) (sys boot)
    sample_markdown (MkSys ∅ 1%nat) ∧
  exports (sample_library None sample_markdown)
    (sys (final (script (sample_library None sample_markdown) full_disk_platform boot)))
    sample_markdown (MkSys (<[output_path := [35; 32; 84; 10]]> ∅) 2%nat) ∧
  fs (sys (final (script (sample_library None sample_markdown) full_disk_platform boot)))
    !! output_path = Some [35; 32; 84; 10] ∧
  fs (sys (final (script (sample_library None sample_markdown) full_disk_platform
     (final (script (sample_library None sample_markdown) full_disk_platform boot)))))
    !! output_path = Some [] ∧
  error_of (script (sample_library None sample_markdown) full_disk_platform
     (final (script (sample_library None sample_markdown) full_disk_platform boot)))
  = Some (RaisedDuring (Exn "OSError") (Raised (Exn "OSError"))).
Proof.
  split; [|split].
  - by exists tt, (MkSys ∅ 1%nat), tt, (MkSys ∅ 1%nat), tt, (MkSys ∅ 1%nat),
      tt, (MkSys ∅ 1%nat).
  - by eexists tt, _, tt, _, tt, _, tt, _.
  - repeat split; vm_compute; reflexivity.
Qed.

(** C8.  The world changes only through the calls into the library and at
    [output.md]: after every run, the world is the one the library calls
    left, except for the content of [output.md]; what the script does of
    its own after them is at most one open, of [output.md], one write and
    one close; and it keeps no descriptor and leaves the command line and
    the environment as they were. *)
Theorem C8_only_output_md_is_written {X} (L : Library X) (P : Platform X)
    (s : State X) :
  ∃ evs r y evs',
    lib_run L (sys s) evs r y ∧
    trace (final (script L P s)) = trace s ++ evs ++ evs' ∧
    ext (sys (final (script L P s))) = ext y ∧
    (∀ path, path ≠ "output.md" →
       fs (sys (final (script L P s))) !! path = fs y !! path) ∧
    (∀ ev, In ev evs' → stage ev = 3%nat) ∧
    (∀ path mode enc r', In (EvOpen path mode enc r') evs' → path = "output.md") ∧
    NoDup (map site evs') ∧
    open_files (final (script L P s)) = open_files s ∧
    argv (final (script L P s)) = argv s ∧
    environ (final (script L P s)) = environ s.
Proof.
  destruct (script_cases L P s) as (evs & r & y & Hrun & Hs).
  exists evs, r, y. destruct r as [e|md].
  - exists []. rewrite Hs; simpl. rewrite app_nil_r.
    repeat split; try done. constructor.
  - destruct Hs as [(e & _ & ->)|(rw & rc & content & -> & _)].
    + eexists [_]. simpl. repeat split; try done.
      * by intros ev [<-|[]].
      * intros path mode enc r' [Heq|[]]. by simplify_eq.
      * apply (bool_decide_unpack _); by vm_compute.
    + eexists [_; _; _].
      assert (Hfinal : ∀ st : State X,
                final (outcome_of (with_error rw rc) st) = st).
      { intros st. by destruct (with_error rw rc). }
      rewrite !Hfinal. simpl. repeat split; try done.
      * intros path Hne. by apply lookup_insert_ne.
      * by intros ev [<-|[<-|[<-|[]]]].
      * intros path mode enc r' [Heq|[Heq|[Heq|[]]]]; by simplify_eq.
      * apply (bool_decide_unpack _); by vm_compute.
Qed.

(** Every property of the world that the library calls keep and that does
    not depend on the content of [output.md] is kept by the script. *)
Lemma script_preserves {X} (L : Library X) (P : Platform X) (s : State X)
    (Q : Sys X → Prop) :
  lib_preserves L Q →
  (∀ y data, Q y → Q (MkSys (<[output_path := data]> (fs y)) (ext y))) →
  Q (sys s) → Q (sys (final (script L P s))).
Proof.
  intros HL Hout Hs0.
  destruct (script_cases L P s) as (evs & r & y & Hrun & Hs).
  pose proof (lib_run_preserves L Q _ _ _ _ HL Hs0 Hrun) as Hy.
  destruct r as [e|md]; [by rewrite Hs|].
  destruct Hs as [(e & _ & ->)|(rw & rc & content & -> & _)]; [done|].
  destruct (with_error rw rc); simpl; by apply Hout.
Qed.

(** C9.  The calls of a run are made in the order of the text of the
    script, each at most once.  The export is called only after the
    conversion has returned, and the file is opened, written and closed only
    after the export has returned.  A call that raises is the last call of
    the run, except that the file is still closed after a write that raised:
    nothing follows a failed conversion or a failed export. *)
Theorem C9_calls_are_sequential {X} (L : Library X) (P : Platform X) (s : State X) :
  ∃ evs, trace (final (script L P s)) = trace s ++ evs ∧
    (∃ n, map site evs = take n program_order) ∧
    (∀ pre ev post, evs = pre ++ ev :: post →
       (site ev = site_export → In (EvConvert source_url None) pre) ∧
       (stage ev = 3%nat → ∃ md, In (EvExport (inr md)) pre) ∧
       (is_Some (event_error ev) →
        post = [] ∨ (site ev = site_write ∧ ∃ fd rc, post = [EvClose fd rc]))).
Proof.
  destruct (script_log_complete L P s) as (evs & Htrace & Hlog).
  exists evs. split; [done|]. split; [by eapply script_log_order|].
  intros pre ev post Hevs.
  apply (at_every_split_spec in_sequence evs []
           (script_log_in_sequence L _ _ _ Hlog) pre ev post Hevs).
Qed.

(** C10.  The file is closed on every way out of the [with] statement: in
    every run, the script holds at the end the descriptors it held at the
    start, and every descriptor that an open returned was closed and is
    free, also when the write raised. *)
Theorem C10_file_is_always_closed {X} (L : Library X) (P : Platform X) (s : State X) :
  open_files (final (script L P s)) = open_files s ∧
  ∃ evs, trace (final (script L P s)) = trace s ++ evs ∧
    (∀ path mode enc fd, In (EvOpen path mode enc (inr fd)) evs →
       (∃ rc, In (EvClose fd rc) evs) ∧
       open_files (final (script L P s)) !! fd = None) ∧
    (∀ fd text e, In (EvWrite fd text (Some e)) evs → ∃ rc, In (EvClose fd rc) evs).
Proof.
  split; [apply script_keeps_process|].
  destruct (script_cases L P s) as (evs & r & y & Hrun & Hs).
  destruct r as [e|md].
  - exists evs. rewrite Hs. split; [done|].
    inversion Hrun; subst; simpl; split; intros; repeat destruct_or!; simplify_eq.
  - apply lib_run_exports_inv in Hrun as [_ ->].
    destruct Hs as [(e & _ & ->)|(rw & rc & content & -> & _)].
    + eexists. split; [done|]. simpl.
      split; intros; repeat destruct_or!; simplify_eq.
    + eexists. split; [by destruct (with_error rw rc)|].
      assert (Hfinal : ∀ st : State X,
                final (outcome_of (with_error rw rc) st) = st).
      { intros st. by destruct (with_error rw rc). }
      rewrite Hfinal. simpl. split.
      * intros path mode enc fd Hin. repeat destruct_or!; simplify_eq.
        split; [exists rc; tauto|apply fresh_fd_free].
      * intros fd text e Hin. repeat destruct_or!; simplify_eq. exists rc. tauto.
Qed.

(** * Further properties of the script *)


(** X1.  When a call into the library raises (the import, the construction
    of the converter, the conversion, the access to the document or the
    export), the run ends there with that exception: the world is the one
    the failing call left and no file was opened, written or closed. *)
Theorem library_failure_writes_nothing {X} (L : Library X) (P : Platform X)
    (s : State X) evs e y :
  lib_run L (sys s) evs (inl e) y →
  script L P s = Raises (Raised e) (advance y evs s) ∧
  (∀ ev, In ev evs → stage ev ≠ 3%nat) ∧
  ∃ ev, last evs = Some ev ∧ event_error ev = Some e.
Proof.
  intros Hrun. split; [apply (script_after_lib L P s _ _ _ Hrun)|].
  inversion Hrun; subst; (split; [|by eexists]);
    intros ev Hin; simpl in Hin; repeat destruct_or!; by simplify_eq.
Qed.

(** The export raises, in a directory that holds an [output.md]: the file
    is left as it was. *)
Lemma library_failure_writes_nothing_witness :
  script export_failing_library (sample_platform posix) boot_with_files
  = Raises (Raised (Exn "RuntimeError"))
      (advance (MkSys (fs (sys boot_with_files)) 1%nat)
         [EvImport None; EvNew None; EvConvert source_url None; EvDocument None;
          EvExport (inl (Exn "RuntimeError"))] boot_with_files) ∧
  (∀ ev, In ev [EvImport None; EvNew None; EvConvert source_url None;
                EvDocument None; EvExport (inl (Exn "RuntimeError"))] →
     stage ev ≠ 3%nat) ∧
  ∃ ev, last [EvImport None; EvNew None; EvConvert source_url None;
              EvDocument None; EvExport (inl (Exn "RuntimeError"))] = Some ev ∧
        event_error ev = Some (Exn "RuntimeError").
Proof.
  apply (library_failure_writes_nothing export_failing_library
           (sample_platform posix) boot_with_files).
  by apply (run_export_raises export_failing_library (sys boot_with_files)
              tt (MkSys (fs (sys boot_with_files)) 1%nat)
              tt (MkSys (fs (sys boot_with_files)) 1%nat)
              tt (MkSys (fs (sys boot_with_files)) 1%nat)
              tt (MkSys (fs (sys boot_with_files)) 1%nat)).
Defined.

(** X2.  When the library has exported the Markdown and [output.md] cannot
    be opened, the run ends with the exception of the open and the files
    are as the library calls left them: an [output.md] of an earlier run
    is neither truncated nor removed, and nothing is written. *)
Theorem open_failure_keeps_old_output {X} (L : Library X) (P : Platform X)
    (s : State X) md y e :
  exports L (sys s) md y →
  os_open_error P "output.md" mode_w y = Some e →
  script L P s
  = Raises (Raised e)
      (advance y
         [EvImport None; EvNew None; EvConvert source_url None; EvDocument None;
          EvExport (inr md); EvOpen "output.md" mode_w utf_8 (inl e)] s).
Proof.
  intros Hexp Hopen. by apply script_open_raises.
Qed.

Lemma open_failure_keeps_old_output_witness :
  script (sample_library None sample_markdown) readonly_platform boot_with_files
  = Raises (Raised (Exn "PermissionError"))
      (advance (MkSys (fs (sys boot_with_files)) 1%nat)
         [EvImport None; EvNew None; EvConvert source_url None; EvDocument None;
          EvExport (inr sample_markdown);
          EvOpen "output.md" mode_w utf_8 (inl (Exn "PermissionError"))]
         boot_with_files).
Proof.
  apply (open_failure_keeps_old_output (sample_library None sample_markdown)
           readonly_platform boot_with_files); [|reflexivity].
  by exists tt, (MkSys (fs (sys boot_with_files)) 1%nat),
    tt, (MkSys (fs (sys boot_with_files)) 1%nat),
    tt, (MkSys (fs (sys boot_with_files)) 1%nat),
    tt, (MkSys (fs (sys boot_with_files)) 1%nat).
Defined.


(** X4.  Once [output.md] has been opened, whatever fails afterwards, the
    file holds a beginning of the UTF-8 encoding of the exported Markdown,
    and nothing when the Markdown cannot be encoded: what the file held
    before the run is gone. *)
Theorem output_is_prefix_of_encoding {X} (L : Library X) (P : Platform X)
    (s : State X) md y :
  exports L (sys s) md y →
  os_open_error P "output.md" mode_w y = None →
  ∃ content,
    fs (sys (final (script L P s))) !! "output.md" = Some content ∧
    match encode utf_8 (translate_newlines (os_name P) md) with
    | Some data => content `prefix_of` data
    | None => content = []
    end.
Proof.
  intros Hexp Hopen.
  destruct (script_after_open L P s md y Hexp Hopen)
    as (rw & rc & content & -> & _ & Hcases).
  exists content. split.
  - destruct (with_error rw rc); simpl; apply lookup_insert_eq.
  - destruct (encode utf_8 _) as [data|]; [|by destruct Hcases as (_ & _ & ?)].
    destruct (os_write_error P _ _ _) as [[n e]|].
    + destruct Hcases as (-> & _). apply prefix_take.
    + by destruct Hcases as (_ & _ & ->).
Qed.

(** The disk takes three of the four octets. *)
Lemma output_is_prefix_of_encoding_witness :
  ∃ content,
    fs (sys (final (script (sample_library None sample_markdown)
                      small_disk_platform boot_with_files))) !! "output.md"
    = Some content ∧
    match encode utf_8 (translate_newlines posix sample_markdown) with
    | Some data => content `prefix_of` data
    | None => content = []
    end.
Proof.
  apply (output_is_prefix_of_encoding (sample_library None sample_markdown)
           small_disk_platform boot_with_files sample_markdown
           (MkSys (fs (sys boot_with_files)) 1%nat)); [|reflexivity].
  by exists tt, (MkSys (fs (sys boot_with_files)) 1%nat),
    tt, (MkSys (fs (sys boot_with_files)) 1%nat),
    tt, (MkSys (fs (sys boot_with_files)) 1%nat),
    tt, (MkSys (fs (sys boot_with_files)) 1%nat).
Defined.




Lemma encode_utf8_ascii text :
  Forall (fun c => 0 <= c < 128) text → encode utf_8 text = Some text.
Proof.
  induction 1 as [|c text Hc _ IH]; [done|]. simpl. rewrite IH.
  unfold utf8_char.
  destruct (c <? 0) eqn:E0; [lia|]. by destruct (c <? 128) eqn:E1; [|lia].
Qed.

(** X7.  On POSIX, a run that returns normally stores an ASCII Markdown
    octet for character: [output.md] holds exactly the code points of the
    exported string. *)
Theorem ascii_markdown_stored_verbatim {X} (L : Library X) (P : Platform X)
    (s s' : State X) md y :
  script L P s = Returns tt s' →
  exports L (sys s) md y →
  os_name P = posix →
  Forall (fun c => 0 <= c < 128) md →
  fs (sys s') !! "output.md" = Some md.
Proof.
  intros Hret Hexp Hos Hascii.
  apply script_returns_inv in Hret as (md' & y' & data & Hexp' & Henc & ->).
  destruct (exports_functional L _ _ _ _ _ Hexp Hexp') as [<- _].
  rewrite Hos, translate_newlines_posix, (encode_utf8_ascii md Hascii) in Henc.
  simplify_eq. simpl. apply lookup_insert_eq.
Qed.

Lemma ascii_markdown_stored_verbatim_witness :
  fs (sys (final (script (sample_library None sample_markdown)
                    (sample_platform posix) boot_with_files))) !! "output.md"
  = Some sample_markdown.
Proof.
  apply (ascii_markdown_stored_verbatim (sample_library None sample_markdown)
           (sample_platform posix) boot_with_files _ sample_markdown
           (MkSys (fs (sys boot_with_files)) 1%nat)).
  - vm_compute; reflexivity.
  - by exists tt, (MkSys (fs (sys boot_with_files)) 1%nat),
      tt, (MkSys (fs (sys boot_with_files)) 1%nat),
      tt, (MkSys (fs (sys boot_with_files)) 1%nat),
      tt, (MkSys (fs (sys boot_with_files)) 1%nat).
  - reflexivity.
  - unfold sample_markdown. repeat constructor; lia.
Defined.

Lemma translate_newlines_nt_head text :
  head (translate_newlines nt text) ≠ Some 10.
Proof.
  destruct text as [|c text]; [done|]. unfold translate_newlines; simpl.
  destruct (Z.eqb_spec c 10); simpl; [done|congruence].
Qed.

Lemma restore_translate_newlines os text :
  restore_newlines os (translate_newlines os text) = text.
Proof.
  destruct os; [apply translate_newlines_posix|]. simpl.
  induction text as [|c text IH]; [done|].
  change (translate_newlines nt (c :: text))
    with ((if c =? 10 then [13; 10] else [c]) ++ translate_newlines nt text).
  destruct (Z.eqb_spec c 10) as [->|Hc].
  - simpl. by rewrite IH.
  - cbn [app restore_newlines_nt]. rewrite IH.
    destruct (Z.eqb_spec c 13) as [->|Hc']; [|done]. simpl.
    pose proof (translate_newlines_nt_head text) as Hhead.
    destruct (head (translate_newlines nt text)) as [c'|]; [|done].
    destruct (Z.eqb_spec c' 10); [congruence|done].
Qed.

(** X8.  Nothing of the exported Markdown is lost: after a run that returns
    normally, decoding [output.md] as UTF-8 and undoing the newline
    translation of the platform gives back exactly the exported string. *)
Theorem output_restores_markdown {X} (L : Library X) (P : Platform X)
    (s s' : State X) md y :
  script L P s = Returns tt s' →
  exports L (sys s) md y →
  ∃ data,
    fs (sys s') !! "output.md" = Some data ∧
    restore_newlines (os_name P) <$> utf8_decode data = Some md.
Proof.
  intros Hret Hexp.
  apply script_returns_inv in Hret as (md' & y' & data & Hexp' & Henc & ->).
  destruct (exports_functional L _ _ _ _ _ Hexp Hexp') as [<- _].
  exists data. split; [simpl; apply lookup_insert_eq|].
  rewrite (utf8_decode_encode _ _ Henc). simpl.
  by rewrite restore_translate_newlines.
Qed.

(** On Windows, with a Markdown that holds a carriage return of its own. *)
Lemma output_restores_markdown_witness :
  ∃ data,
    fs (sys (final (script (sample_library None [35; 13; 10; 13; 0x20AC; 10])
                      (sample_platform nt) boot))) !! "output.md" = Some data ∧
    restore_newlines nt <$> utf8_decode data = Some [35; 13; 10; 13; 0x20AC; 10].
Proof.
  apply (output_restores_markdown (sample_library None [35; 13; 10; 13; 0x20AC; 10])
           (sample_platform nt) boot _ _ (MkSys ∅ 1%nat)).
  - vm_compute; reflexivity.
  - by exists tt, (MkSys ∅ 1%nat), tt, (MkSys ∅ 1%nat), tt, (MkSys ∅ 1%nat),
      tt, (MkSys ∅ 1%nat).
Defined.


